(** * Risk-scoring engine of the fraud detection system

    A shallow embedding of [app/core/fraud_engine.py] (class
    [FraudDetectionEngine]) and of the one setting it reads from
    [app/core/config.py], followed by the properties of the scoring
    pipeline: feature extraction, rule evaluation, statistical scoring,
    score fusion, tier classification, indicator generation and the
    orchestrating [analyze_transaction].

    Modelling conventions.
    - A Python [float] is idealised as a rational number: a decimal literal
      stands for the decimal it spells and arithmetic is exact.  The rounding
      error of binary64, infinities and NaN are outside the model.
      Comparisons, [min], [max] and [round] follow the Python definitions on
      those rationals.
    - A transaction payload is a [dict] with string keys: a
      [gmap string pyval].
    - A raised exception is a value: computations that may raise return
      [result A], and [try: ... except Exception as e: ...] is [py_try].
    - Library code the engine calls but which is not part of the repository
      (string-to-float conversion, ISO timestamp parsing, the clock,
      [numpy.log1p], the per-process string hash behind [set], and the three
      fitted scikit-learn objects) is taken as a parameter, gathered in
      [Runtime] and [Models]. *)

From Stdlib Require Import QArith Qminmax Qround Lqa ZArith Lia Ascii String.
From stdpp Require Import gmap strings list sorting pretty.

Set Warnings "-register-all".

Open Scope Q_scope.

(** ** Exceptions and computations that may raise *)

Inductive exn : Type :=
  | ValueError (msg : string)
  | TypeError (msg : string)
  | AttributeError (msg : string)
  | IndexError (msg : string).

(** [str(e)] *)
Definition str_of_exn (e : exn) : string :=
  match e with
  | ValueError m | TypeError m | AttributeError m | IndexError m => m
  end.

Inductive result (A : Type) : Type :=
  | Ok (a : A)
  | Raise (e : exn).
Arguments Ok {A} a.
Arguments Raise {A} e.

#[global] Instance result_ret : MRet result := fun A a => Ok a.

#[global] Instance result_bind : MBind result := fun A B k m =>
  match m with
  | Ok a => k a
  | Raise e => Raise e
  end.

(** [try: body  except Exception as e: handler(e)] *)
Definition py_try {A : Type} (body : result A) (handler : exn -> result A)
  : result A :=
  match body with
  | Ok a => Ok a
  | Raise e => handler e
  end.

(** ** Python values found in a payload *)

(** [datetime.datetime], naive or aware; only the calendar fields matter
    to the engine. *)
Record datetime : Type := mk_datetime {
  dt_year : Z;
  dt_month : Z;
  dt_day : Z;
  dt_hour : Z;
  dt_minute : Z;
  dt_second : Z
}.

Definition is_leap (y : Z) : bool :=
  ((y mod 4 =? 0) && (negb (y mod 100 =? 0) || (y mod 400 =? 0)))%Z.

Definition days_before_year (y : Z) : Z :=
  (let y1 := y - 1 in y1 * 365 + y1 / 4 - y1 / 100 + y1 / 400)%Z.

Definition days_before_month (y m : Z) : Z :=
  (nth (Z.to_nat m) [0; 0; 31; 59; 90; 120; 151; 181; 212; 243; 273; 304; 334] 0
   + (if (2 <? m) && is_leap y then 1 else 0))%Z.

Definition toordinal (d : datetime) : Z :=
  (days_before_year (dt_year d) + days_before_month (dt_year d) (dt_month d)
   + dt_day d)%Z.

(** [d.weekday()]: Monday is 0. *)
Definition weekday (d : datetime) : Z := ((toordinal d + 6) mod 7)%Z.

Inductive pyval : Type :=
  | VNone
  | VBool (b : bool)
  | VInt (z : Z)
  | VFloat (q : Q)
  | VStr (s : string)
  | VDatetime (d : datetime)
  | VList (l : list pyval).

(** [transaction_data.get(key, default)] *)
Definition dict_get (d : gmap string pyval) (key : string) (dflt : pyval)
  : pyval :=
  default dflt (d !! key).

(** Truth value of an object in a condition. *)
Definition truthy (v : pyval) : bool :=
  match v with
  | VNone => false
  | VBool b => b
  | VInt z => negb (z =? 0)%Z
  | VFloat q => negb (Qeq_bool q 0)
  | VStr s => negb (String.eqb s "")
  | VDatetime _ => true
  | VList l => match l with [] => false | _ => true end
  end.

(** [v == s] for a string literal [s]. *)
Definition eq_str (v : pyval) (s : string) : bool :=
  match v with
  | VStr t => String.eqb t s
  | _ => false
  end.

(** [v in [s1, s2, ...]] for a list of string literals. *)
Definition in_str_list (v : pyval) (l : list string) : bool :=
  existsb (eq_str v) l.

(** Lists are the only unhashable values of the universe. *)
Definition hashable (v : pyval) : bool :=
  match v with
  | VList _ => false
  | _ => true
  end.

(** [table.get(key, dflt)] for a dict literal with string keys and integer
    values; an unhashable key raises. *)
Definition str_table_get (table : list (string * Z)) (key : pyval) (dflt : Z)
  : result Z :=
  match key with
  | VList _ => Raise (TypeError "unhashable type: 'list'")
  | VStr s =>
      Ok (default dflt ((list_to_map table : gmap string Z) !! s))
  | _ => Ok dflt
  end.

Fixpoint is_substring (needle hay : string) : bool :=
  String.prefix needle hay ||
  match hay with
  | EmptyString => false
  | String _ rest => is_substring needle rest
  end.

(** [needle in v] for a string literal [needle]. *)
Definition str_in (needle : string) (v : pyval) : result bool :=
  match v with
  | VStr s => Ok (is_substring needle s)
  | VList l => Ok (existsb (fun x => eq_str x needle) l)
  | _ => Raise (TypeError "argument is not iterable")
  end.

(** [s.replace('Z', '+00:00')] *)
Fixpoint replace_Z (s : string) : string :=
  match s with
  | EmptyString => EmptyString
  | String c rest =>
      if Ascii.eqb c "Z"%char then ("+00:00" ++ replace_Z rest)%string
      else String c (replace_Z rest)
  end.

(** [min(a, b)] and [max(a, b)] return the first argument on a tie, as
    [Qmin] and [Qmax] do. *)
Definition py_min (a b : Q) : Q := Qmin a b.
Definition py_max (a b : Q) : Q := Qmax a b.

(** Nearest integer, ties to the even one. *)
Definition round_half_even (q : Q) : Z :=
  let f := Qfloor q in
  match Qcompare (q - inject_Z f) (1 # 2) with
  | Lt => f
  | Gt => (f + 1)%Z
  | Eq => if Z.even f then f else (f + 1)%Z
  end.

(** [round(q, ndigits)] for a float [q]. *)
Definition py_round (q : Q) (ndigits : nat) : Q :=
  let scale := inject_Z (10 ^ Z.of_nat ndigits) in
  inject_Z (round_half_even (q * scale)) / scale.

(** ** The library environment *)

Record Runtime : Type := mk_runtime {
  (** [float(s)] on a string; [None] stands for [ValueError]. *)
  float_of_str : string -> option Q;
  (** [datetime.fromisoformat(s)]; [None] stands for [ValueError]. *)
  fromisoformat : string -> option datetime;
  (** [datetime.now()] *)
  now : datetime;
  (** [datetime.utcnow().isoformat()] *)
  utcnow_isoformat : string;
  (** [numpy.log1p] *)
  log1p : Q -> Q;
  (** [hash] on strings, keyed per interpreter process; it fixes the
      iteration order of a [set] of strings. *)
  str_hash : string -> Z
}.

(** [float(v)] *)
Definition py_float (rt : Runtime) (v : pyval) : result Q :=
  match v with
  | VBool b => Ok (if b then 1 else 0)
  | VInt z => Ok (inject_Z z)
  | VFloat q => Ok q
  | VStr s =>
      match float_of_str rt s with
      | Some q => Ok q
      | None => Raise (ValueError ("could not convert string to float: '" ++ s ++ "'"))
      end
  | _ => Raise (TypeError "float() argument must be a string or a real number")
  end.

(** [timestamp.hour] and [timestamp.weekday()] *)
Definition py_hour (v : pyval) : result Z :=
  match v with
  | VDatetime d => Ok (dt_hour d)
  | _ => Raise (AttributeError "object has no attribute 'hour'")
  end.

Definition py_weekday (v : pyval) : result Z :=
  match v with
  | VDatetime d => Ok (weekday d)
  | _ => Raise (AttributeError "object has no attribute 'weekday'")
  end.

(** The timestamp as both [_extract_features] and [_apply_risk_rules] read
    it: the payload value, or the current time when absent; a string is
    parsed as ISO 8601 after replacing [Z] by [+00:00]. *)
Definition read_timestamp (rt : Runtime) (transaction_data : gmap string pyval)
  : result pyval :=
  match dict_get transaction_data "timestamp" (VDatetime (now rt)) with
  | VStr s =>
      match fromisoformat rt (replace_Z s) with
      | Some d => Ok (VDatetime d)
      | None => Raise (ValueError ("Invalid isoformat string: '" ++ s ++ "'"))
      end
  | v => Ok v
  end.

(** [list(set(xs))] for a list of strings.  A set keeps one copy of each
    element and is iterated in the order of its hash table, which is
    decided by the hashes of the elements, not by the order of insertion. *)
Definition hash_le (h : string -> Z) (x y : string) : Prop := (h x <= h y)%Z.

#[global] Instance hash_le_dec h x y : Decision (hash_le h x y).
Proof. unfold hash_le. apply _. Defined.

Definition list_of_set (h : string -> Z) (xs : list string) : list string :=
  merge_sort (hash_le h) (remove_dups xs).

Definition Qlt_bool (a b : Q) : bool := negb (Qle_bool b a).

(** [xs[i]] *)
Definition index {A : Type} (xs : list A) (i : nat) : result A :=
  match xs !! i with
  | Some x => Ok x
  | None => Raise (IndexError "index out of range")
  end.

(** ** Configuration ([app/core/config.py]) *)

Record Settings : Type := mk_settings {
  FRAUD_THRESHOLD : Q
}.

(** The values of the class body, used when the environment overrides
    nothing. *)
Definition default_settings : Settings := {| FRAUD_THRESHOLD := 0.7 |}.

(** ** Engine state *)

Record RiskRule : Type := mk_rule {
  rule_name : string;
  rule_type : string;
  rule_threshold : Q;
  rule_weight : Q;
  rule_description : string
}.

(** The fitted objects held in [self.scalers] and [self.models], each seen
    through the one call the engine makes on it. *)
Record Models : Type := mk_models {
  (** [self.scalers['transaction'].transform(X)] *)
  scaler_transform : list (list Q) -> result (list (list Q));
  (** [self.models['anomaly'].decision_function(X)[0]] *)
  anomaly_decision_function : list (list Q) -> result Q;
  (** [self.models['classifier'].predict_proba(X)[0][1]] *)
  classifier_predict_proba : list (list Q) -> result Q
}.

Record FraudDetectionEngine : Type := mk_engine {
  models : Models;
  risk_rules : list RiskRule
}.

Definition load_risk_rules : list RiskRule :=
  [ mk_rule "high_amount_threshold" "amount" 5000.0 3.0
      "Transactions above €5,000";
    mk_rule "foreign_transaction" "location" 1.0 2.0
      "Transactions outside Ireland";
    mk_rule "unusual_time" "time" 1.0 1.5
      "Transactions outside normal hours (22:00-06:00)";
    mk_rule "velocity_check" "velocity" 3.0 2.5
      "More than 3 transactions in 10 minutes";
    mk_rule "new_merchant" "pattern" 1.0 1.0
      "First transaction with merchant" ].

(** [__init__], given the objects fitted by [initialize_models]. *)
Definition init_engine (fitted : Models) : FraudDetectionEngine :=
  {| models := fitted; risk_rules := load_risk_rules |}.

Definition update_risk_rules (self : FraudDetectionEngine)
    (new_rules : list RiskRule) : FraudDetectionEngine :=
  {| models := models self; risk_rules := new_rules |}.

(** ** The analysis result *)

(** The dictionary returned by [analyze_transaction].  The keys present
    only in the regular result, and [error], present only in the degraded
    one, are optional fields. *)
Record AnalysisResult : Type := mk_result {
  transaction_id : pyval;
  risk_score : Q;
  risk_level : string;
  is_flagged : bool;
  fraud_indicators : list string;
  triggered_rules : option (list string);
  ml_score : option Q;
  rule_score : option Q;
  analysis_timestamp : option string;
  error : option string
}.

(** ** Feature extraction *)

Definition channel_map : list (string * Z) :=
  [("online", 1); ("atm", 2); ("pos", 3); ("mobile", 4)]%Z.

Definition eu_countries : list string :=
  ["IE"; "GB"; "FR"; "DE"; "ES"; "IT"; "NL"; "BE"; "AT"; "PT"].

Definition type_map : list (string * Z) :=
  [("debit", 1); ("credit", 2); ("transfer", 3)]%Z.

Definition high_risk_categories : list string :=
  ["gambling"; "crypto"; "cash_advance"; "money_transfer"].

Definition _extract_features (rt : Runtime)
    (transaction_data : gmap string pyval) : result (list (list Q)) :=
  amount ← py_float rt (dict_get transaction_data "amount" (VInt 0));
  let log_amount := log1p rt amount in
  timestamp ← read_timestamp rt transaction_data;
  hour ← py_hour timestamp;
  day ← py_weekday timestamp;
  channel ← str_table_get channel_map
              (dict_get transaction_data "channel" (VStr "pos")) 3;
  let country := dict_get transaction_data "location_country" (VStr "IE") in
  let country_risk :=
    if eq_str country "IE" then 0
    else if in_str_list country eu_countries then 1
    else 2 in
  kind ← str_table_get type_map
           (dict_get transaction_data "transaction_type" (VStr "debit")) 1;
  let category := dict_get transaction_data "merchant_category" (VStr "other") in
  let category_risk :=
    if in_str_list category high_risk_categories then 2 else 1 in
  account_balance ←
    py_float rt (dict_get transaction_data "account_balance" (VInt 10000));
  let balance_ratio := amount / py_max account_balance 1 in
  Ok [[ log_amount; inject_Z hour; inject_Z day; inject_Z channel;
        country_risk; inject_Z kind; category_risk;
        py_min balance_ratio 2.0 ]].

(** ** Rule evaluation *)

(** The body of the [if / elif] chain for one rule: whether it triggers. *)
Definition rule_triggered (transaction_data : gmap string pyval)
    (amount : Q) (timestamp : pyval) (rule : RiskRule) : result bool :=
  if String.eqb (rule_type rule) "amount" then
    Ok (Qle_bool (rule_threshold rule) amount)
  else if String.eqb (rule_type rule) "location" then
    let country := dict_get transaction_data "location_country" (VStr "IE") in
    Ok (negb (eq_str country "IE"))
  else if String.eqb (rule_type rule) "time" then
    hour ← py_hour timestamp;
    Ok ((22 <=? hour)%Z || (hour <=? 6)%Z)
  else if String.eqb (rule_type rule) "velocity" then
    str_in "rapid" (dict_get transaction_data "fraud_indicators" (VStr ""))
  else if String.eqb (rule_type rule) "pattern" then
    Ok (truthy (dict_get transaction_data "is_new_merchant" (VBool false)))
  else
    Ok false.

(** The [for rule in self.risk_rules] loop, carrying [total_score] and
    [triggered_rules]. *)
Fixpoint rules_loop (transaction_data : gmap string pyval) (amount : Q)
    (timestamp : pyval) (rules : list RiskRule)
    (total_score : Q) (triggered : list string) : result (Q * list string) :=
  match rules with
  | [] => Ok (total_score, triggered)
  | rule :: rest =>
      t ← rule_triggered transaction_data amount timestamp rule;
      if (t : bool) then
        rules_loop transaction_data amount timestamp rest
          (total_score + rule_weight rule) (triggered ++ [rule_name rule])
      else
        rules_loop transaction_data amount timestamp rest total_score triggered
  end.

Definition _apply_risk_rules (rt : Runtime) (self : FraudDetectionEngine)
    (transaction_data : gmap string pyval) : result (Q * list string) :=
  amount ← py_float rt (dict_get transaction_data "amount" (VInt 0));
  timestamp ← read_timestamp rt transaction_data;
  '(total_score, triggered) ←
    rules_loop transaction_data amount timestamp (risk_rules self) 0.0 [];
  Ok (py_min total_score 10.0, triggered).

(** ** Statistical scoring *)

Definition ml_models_body (self : FraudDetectionEngine)
    (features : list (list Q)) : result Q :=
  features_scaled ← scaler_transform (models self) features;
  anomaly_score ← anomaly_decision_function (models self) features_scaled;
  let anomaly_score_normalized :=
    py_max 0 (py_min 10 ((0.5 - anomaly_score) * 5)) in
  fraud_probability ← classifier_predict_proba (models self) features_scaled;
  let classification_score := fraud_probability * 10 in
  Ok ((anomaly_score_normalized + classification_score) / 2).

Definition _apply_ml_models (self : FraudDetectionEngine)
    (features : list (list Q)) : result Q :=
  py_try (ml_models_body self features) (fun _ => Ok 0.0).

(** ** Fusion and tiers *)

Definition _combine_scores (rule_score ml_score : Q) : Q :=
  let combined_score := rule_score * 0.6 + ml_score * 0.4 in
  py_min combined_score 10.0.

Definition _determine_risk_level (score : Q) : string :=
  if Qle_bool 8.0 score then "critical"
  else if Qle_bool 6.0 score then "high"
  else if Qle_bool 4.0 score then "medium"
  else "low".

(** ** Indicators *)

Definition rule_descriptions : gmap string string :=
  list_to_map
    [ ("high_amount_threshold", "Unusually high transaction amount");
      ("foreign_transaction", "Transaction outside Ireland");
      ("unusual_time", "Transaction at unusual time");
      ("velocity_check", "Multiple rapid transactions");
      ("new_merchant", "First transaction with this merchant") ].

(** The list [indicators] as it stands just before the [return]. *)
Definition collect_indicators (triggered : list string)
    (features : list (list Q)) : result (list string) :=
  let indicators := omap (fun rule => rule_descriptions !! rule) triggered in
  if (0 <? length features)%nat then
    feature_values ← index features 0;
    f0 ← index feature_values 0;
    let indicators :=
      if Qlt_bool 8 f0
      then indicators ++ ["Amount significantly above normal pattern"]
      else indicators in
    f4 ← index feature_values 4;
    let indicators :=
      if Qeq_bool f4 2
      then indicators ++ ["Transaction from high-risk country"]
      else indicators in
    f6 ← index feature_values 6;
    let indicators :=
      if Qeq_bool f6 2
      then indicators ++ ["High-risk merchant category"]
      else indicators in
    Ok indicators
  else Ok indicators.

Definition _generate_fraud_indicators (rt : Runtime) (triggered : list string)
    (features : list (list Q)) : result (list string) :=
  indicators ← collect_indicators triggered features;
  Ok (list_of_set (str_hash rt) indicators).

(** ** Orchestration *)

(** The [try] block of [analyze_transaction]. *)
Definition analysis_body (rt : Runtime) (settings : Settings)
    (self : FraudDetectionEngine) (transaction_data : gmap string pyval)
  : result AnalysisResult :=
  features ← _extract_features rt transaction_data;
  '(rule_score, triggered) ← _apply_risk_rules rt self transaction_data;
  ml_score ← _apply_ml_models self features;
  let final_score := _combine_scores rule_score ml_score in
  let risk_level := _determine_risk_level final_score in
  fraud_indicators ← _generate_fraud_indicators rt triggered features;
  Ok {| transaction_id := dict_get transaction_data "transaction_id" VNone;
        risk_score := py_round final_score 2;
        risk_level := risk_level;
        is_flagged := Qle_bool (FRAUD_THRESHOLD settings) final_score;
        fraud_indicators := fraud_indicators;
        triggered_rules := Some triggered;
        ml_score := Some (py_round ml_score 2);
        rule_score := Some (py_round rule_score 2);
        analysis_timestamp := Some (utcnow_isoformat rt);
        error := None |}.

(** The [except] block. *)
Definition degraded_result (transaction_data : gmap string pyval) (e : exn)
  : AnalysisResult :=
  {| transaction_id := dict_get transaction_data "transaction_id" VNone;
     risk_score := 0.0;
     risk_level := "unknown";
     is_flagged := false;
     fraud_indicators := [];
     triggered_rules := None;
     ml_score := None;
     rule_score := None;
     analysis_timestamp := None;
     error := Some (str_of_exn e) |}.

Definition analyze_transaction (rt : Runtime) (settings : Settings)
    (self : FraudDetectionEngine) (transaction_data : gmap string pyval)
  : result AnalysisResult :=
  py_try (analysis_body rt settings self transaction_data)
         (fun e => Ok (degraded_result transaction_data e)).

(** ** The fraud detection service ([app/services/fraud_detection_service.py])

    The service runs the engine, stores the transaction, and raises an
    alert and a notification for flagged transactions.  The database and
    the notification service are outside the engine: the rows the service
    builds are modelled field by field, the tables as lists, and what a
    database session answers to a commit is a parameter. *)

(** A [Transaction] row as [_store_transaction] fills it. *)
Record TransactionRow : Type := mk_transaction_row {
  row_transaction_id : pyval;
  row_account_id : pyval;
  row_customer_id : pyval;
  row_amount : Q;
  row_currency : pyval;
  row_transaction_type : pyval;
  row_merchant_name : pyval;
  row_merchant_category : pyval;
  row_location_country : pyval;
  row_location_city : pyval;
  row_device_fingerprint : pyval;
  row_ip_address : pyval;
  row_channel : pyval;
  row_risk_score : Q;
  row_is_flagged : bool;
  row_fraud_indicators : string;
  row_status : string;
  row_processed_at : datetime
}.

(** A [FraudAlert] row as [_create_fraud_alert] fills it. *)
Record AlertRow : Type := mk_alert_row {
  alert_alert_id : string;
  alert_transaction_id : Z;
  alert_alert_type : string;
  alert_severity : string;
  alert_risk_score : Q;
  alert_description : string;
  alert_fraud_indicators : string;
  alert_status : string
}.

(** The tables, each row with the primary key it was given, and the alerts
    handed to the notification service, oldest first. *)
Record ServiceState : Type := mk_service_state {
  db_transactions : list (Z * TransactionRow);
  db_alerts : list (Z * AlertRow);
  notified : list AlertRow
}.

(** What lies outside the service. *)
Record Backend : Type := mk_backend {
  (** [next(get_session())]; [Some e] when no session can be had. *)
  session_error : option exn;
  (** [db.add(row); db.commit(); db.refresh(row)] on a transaction: the
      primary key, or the exception of the commit. *)
  commit_transaction : ServiceState -> TransactionRow -> result Z;
  (** The same on an alert. *)
  commit_alert : ServiceState -> AlertRow -> result Z;
  (** [NotificationService.send_fraud_alert], which catches every
      exception itself and answers a boolean. *)
  send_fraud_alert : AlertRow -> bool;
  (** [datetime.utcnow()] *)
  utcnow : datetime;
  (** [str(xs)] on a list of strings *)
  str_of_list : list string -> string;
  (** [f"{x:.1f}"] on a float *)
  format_1f : Q -> string
}.

(** A computation on the service state that may raise; what was written
    before the exception stays written. *)
Definition Service (A : Type) : Type := ServiceState -> result A * ServiceState.

Definition service_ret {A : Type} (a : A) : Service A := fun s => (Ok a, s).

Definition service_bind {A B : Type} (m : Service A) (k : A -> Service B)
  : Service B :=
  fun s =>
    match m s with
    | (Ok a, s') => k a s'
    | (Raise e, s') => (Raise e, s')
    end.

Definition service_lift {A : Type} (r : result A) : Service A := fun s => (r, s).

(** [try: body  except Exception as e: handler(e)] in the service. *)
Definition service_try {A : Type} (body : Service A) (handler : exn -> Service A)
  : Service A :=
  fun s =>
    match body s with
    | (Ok a, s') => (Ok a, s')
    | (Raise e, s') => handler e s'
    end.

(** [f"{n:06d}"] *)
Definition format_06d (n : Z) : string :=
  let digits := pretty (Z.abs n) in
  let sign := if (n <? 0)%Z then "-" else "" in
  let width := (6 - String.length sign - String.length digits)%nat in
  (sign ++ String.concat "" (replicate width "0") ++ digits)%string.

Definition _store_transaction (rt : Runtime) (backend : Backend)
    (transaction_data : gmap string pyval) (analysis_result : AnalysisResult)
  : Service (Z * TransactionRow) :=
  fun s =>
    match session_error backend with
    | Some e => (Raise e, s)
    | None =>
        match py_float rt (dict_get transaction_data "amount" (VInt 0)) with
        | Raise e => (Raise e, s)
        | Ok amount =>
            let transaction :=
              {| row_transaction_id := dict_get transaction_data "transaction_id" VNone;
                 row_account_id := dict_get transaction_data "account_id" (VInt 1);
                 row_customer_id := dict_get transaction_data "customer_id" (VInt 1);
                 row_amount := amount;
                 row_currency := dict_get transaction_data "currency" (VStr "EUR");
                 row_transaction_type :=
                   dict_get transaction_data "transaction_type" (VStr "debit");
                 row_merchant_name := dict_get transaction_data "merchant_name" VNone;
                 row_merchant_category :=
                   dict_get transaction_data "merchant_category" VNone;
                 row_location_country :=
                   dict_get transaction_data "location_country" (VStr "IE");
                 row_location_city := dict_get transaction_data "location_city" VNone;
                 row_device_fingerprint :=
                   dict_get transaction_data "device_fingerprint" VNone;
                 row_ip_address := dict_get transaction_data "ip_address" VNone;
                 row_channel := dict_get transaction_data "channel" (VStr "online");
                 row_risk_score := risk_score analysis_result;
                 row_is_flagged := is_flagged analysis_result;
                 row_fraud_indicators :=
                   str_of_list backend (fraud_indicators analysis_result);
                 row_status :=
                   if is_flagged analysis_result then "investigating" else "approved";
                 row_processed_at := utcnow backend |} in
            match commit_transaction backend s transaction with
            | Raise e => (Raise e, s)
            | Ok id =>
                (Ok (id, transaction),
                 {| db_transactions := db_transactions s ++ [(id, transaction)];
                    db_alerts := db_alerts s;
                    notified := notified s |})
            end
        end
    end.

Definition _determine_alert_type (analysis_result : AnalysisResult) : string :=
  let triggered := default [] (triggered_rules analysis_result) in
  if bool_decide ("high_amount_threshold" ∈ triggered) then "high_value_transaction"
  else if bool_decide ("foreign_transaction" ∈ triggered) then "suspicious_location"
  else if bool_decide ("velocity_check" ∈ triggered) then "rapid_transactions"
  else if bool_decide ("unusual_time" ∈ triggered) then "off_hours_transaction"
  else "anomaly_detected".

Definition _generate_alert_description (backend : Backend)
    (analysis_result : AnalysisResult) : string :=
  let indicators := fraud_indicators analysis_result in
  let description :=
    ("Transaction flagged with " ++ risk_level analysis_result
       ++ " risk (score: " ++ format_1f backend (risk_score analysis_result)
       ++ "). ")%string in
  match indicators with
  | [] => description
  | _ =>
      let description :=
        (description ++ "Indicators: " ++ String.concat ", " (take 3 indicators))%string in
      if (3 <? length indicators)%nat
      then (description ++ " and " ++ pretty (length indicators - 3)%nat ++ " more")%string
      else description
  end.

Definition _create_fraud_alert (rt : Runtime) (backend : Backend)
    (transaction : Z * TransactionRow) (analysis_result : AnalysisResult)
  : Service AlertRow :=
  fun s =>
    match session_error backend with
    | Some e => (Raise e, s)
    | None =>
        let alert_id :=
          ("FA-" ++ pretty (dt_year (now rt)) ++ "-" ++ format_06d (fst transaction))%string in
        let alert :=
          {| alert_alert_id := alert_id;
             alert_transaction_id := fst transaction;
             alert_alert_type := _determine_alert_type analysis_result;
             alert_severity := risk_level analysis_result;
             alert_risk_score := risk_score analysis_result;
             alert_description := _generate_alert_description backend analysis_result;
             alert_fraud_indicators :=
               str_of_list backend (fraud_indicators analysis_result);
             alert_status := "open" |} in
        match commit_alert backend s alert with
        | Raise e => (Raise e, s)
        | Ok id =>
            (Ok alert,
             {| db_transactions := db_transactions s;
                db_alerts := db_alerts s ++ [(id, alert)];
                notified := notified s |})
        end
    end.

(** [await self.notification_service.send_fraud_alert(alert)] *)
Definition notify (backend : Backend) (alert : AlertRow) : Service bool :=
  fun s =>
    (Ok (send_fraud_alert backend alert),
     {| db_transactions := db_transactions s;
        db_alerts := db_alerts s;
        notified := notified s ++ [alert] |}).

(** The dictionary [process_transaction] returns. *)
Record ProcessingResponse : Type := mk_response {
  response_transaction_id : pyval;
  response_status : string;
  response_risk_assessment : option AnalysisResult;
  response_requires_review : option bool;
  response_error : option string
}.

Definition process_transaction (rt : Runtime) (settings : Settings)
    (self : FraudDetectionEngine) (backend : Backend)
    (transaction_data : gmap string pyval) : Service ProcessingResponse :=
  service_try
    (service_bind
       (service_lift (analyze_transaction rt settings self transaction_data))
       (fun analysis_result =>
     service_bind
       (_store_transaction rt backend transaction_data analysis_result)
       (fun db_transaction =>
     service_bind
       (if is_flagged analysis_result then
          service_bind
            (_create_fraud_alert rt backend db_transaction analysis_result)
            (fun alert =>
               if bool_decide (risk_level analysis_result ∈ ["high"; "critical"])
               then service_bind (notify backend alert) (fun _ => service_ret tt)
               else service_ret tt)
        else service_ret tt)
       (fun _ =>
     service_ret
       {| response_transaction_id :=
            dict_get transaction_data "transaction_id" VNone;
          response_status := "processed";
          response_risk_assessment := Some analysis_result;
          response_requires_review := Some (is_flagged analysis_result);
          response_error := None |}))))
    (fun e =>
       service_ret
         {| response_transaction_id :=
              dict_get transaction_data "transaction_id" VNone;
            response_status := "error";
            response_risk_assessment := None;
            response_requires_review := None;
            response_error := Some (str_of_exn e) |}).

(** ** A concrete runtime

    The examples below run the engine in this environment.  Its parsers
    accept a subset of what Python accepts (plain signed decimals;
    [YYYY-MM-DDTHH:MM:SS] with an optional [+HH:MM] offset) and reject
    every other string; [log1p] is a rational approximation; the hash is a
    polynomial one. *)

Definition digit_of (c : ascii) : option Z :=
  let n := nat_of_ascii c in
  if (48 <=? n)%nat && (n <=? 57)%nat then Some (Z.of_nat n - 48)%Z else None.

(** Value and number of digits of a (possibly empty) string of digits. *)
Fixpoint parse_digits (s : string) (acc : Z) (count : nat) : option (Z * nat) :=
  match s with
  | EmptyString => Some (acc, count)
  | String c rest =>
      match digit_of c with
      | Some d => parse_digits rest (acc * 10 + d)%Z (S count)
      | None => None
      end
  end.

Fixpoint split_at_dot (s : string) : string * option string :=
  match s with
  | EmptyString => (EmptyString, None)
  | String c rest =>
      if Ascii.eqb c "."%char then (EmptyString, Some rest)
      else let '(a, b) := split_at_dot rest in (String c a, b)
  end.

Definition decimal_float (s : string) : option Q :=
  let '(negative, body) :=
    match s with
    | String "-"%char rest => (true, rest)
    | String "+"%char rest => (false, rest)
    | _ => (false, s)
    end in
  let '(int_part, frac) := split_at_dot body in
  '(i, ni) ← parse_digits int_part 0 0;
  '(f, nf) ← parse_digits (default EmptyString frac) 0 0;
  if (ni + nf =? 0)%nat then None
  else
    let v := Qred (inject_Z i + inject_Z f / inject_Z (10 ^ Z.of_nat nf)) in
    Some (if (negative : bool) then - v else v).

(** The number written by the [len] digits of [s] that start at [pos]. *)
Definition number_at (s : string) (pos len : nat) : option Z :=
  let part := String.substring pos len s in
  if (String.length part =? len)%nat
  then fst <$> parse_digits part 0 0
  else None.

Definition char_at (s : string) (pos : nat) (c : ascii) : bool :=
  match String.get pos s with
  | Some c' => Ascii.eqb c c'
  | None => false
  end.

Definition in_range (lo hi z : Z) : bool := ((lo <=? z) && (z <=? hi))%Z.

Definition iso_datetime (s : string) : option datetime :=
  y ← number_at s 0 4;
  mo ← number_at s 5 2;
  d ← number_at s 8 2;
  h ← number_at s 11 2;
  mi ← number_at s 14 2;
  sec ← number_at s 17 2;
  let offset_ok :=
    (String.length s =? 19)%nat ||
    ((String.length s =? 25)%nat
     && (char_at s 19 "+" || char_at s 19 "-") && char_at s 22 ":"
     && bool_decide (is_Some (number_at s 20 2))
     && bool_decide (is_Some (number_at s 23 2))) in
  if char_at s 4 "-" && char_at s 7 "-" && char_at s 13 ":" && char_at s 16 ":"
     && in_range 1 9999 y && in_range 1 12 mo && in_range 1 31 d
     && in_range 0 23 h && in_range 0 59 mi && in_range 0 59 sec
     && offset_ok
  then Some (mk_datetime y mo d h mi sec)
  else None.

(** [ln (1 + a)] for [a > -1], through [ln x = k ln 2 + 2 artanh z] with
    [x = 2^k m], [z = (m - 1) / (m + 1)] and four terms of the series. *)
Definition log1p_approx (a : Q) : Q :=
  let x := 1 + a in
  if Qle_bool x 0 then 0
  else
    let k := Z.log2 (Qfloor x) in
    let m := x / inject_Z (2 ^ k) in
    let z := Qred ((m - 1) / (m + 1)) in
    let z2 := z * z in
    Qred (inject_Z k * (6931472 # 10000000)
          + 2 * z * (1 + z2 * ((1 # 3) + z2 * ((1 # 5) + z2 * (1 # 7))))).

Fixpoint poly_hash (s : string) (acc : Z) : Z :=
  match s with
  | EmptyString => acc
  | String c rest => poly_hash rest ((acc * 31 + Z.of_nat (nat_of_ascii c)) mod 2 ^ 61)%Z
  end.

(** The runtime of an interpreter process started with hash seed [seed]. *)
Definition seeded_runtime (seed : Z) : Runtime :=
  {| float_of_str := decimal_float;
     fromisoformat := iso_datetime;
     now := mk_datetime 2024 1 15 14 30 0;
     utcnow_isoformat := "2024-01-15T14:30:00";
     log1p := log1p_approx;
     str_hash := fun s => poly_hash s seed |}.

Definition reference_runtime : Runtime := seeded_runtime 0.

(** Fitted objects that answer the same decision value and the same fraud
    probability on every input, and ones whose anomaly model raises. *)
Definition constant_models (decision probability : Q) : Models :=
  {| scaler_transform := fun X => Ok X;
     anomaly_decision_function := fun _ => Ok decision;
     classifier_predict_proba := fun _ => Ok probability |}.

Definition raising_models (probability : Q) : Models :=
  {| scaler_transform := fun X => Ok X;
     anomaly_decision_function := fun _ =>
       Raise (ValueError "X has 7 features, but IsolationForest is expecting 8");
     classifier_predict_proba := fun _ => Ok probability |}.

(** A backend whose sessions always commit, with primary keys counted
    from 1, and whose notification service answers [true]. *)
Definition python_repr (xs : list string) : string :=
  ("[" ++ String.concat ", " ((fun x => "'" ++ x ++ "'") <$> xs) ++ "]")%string.

Definition reference_backend : Backend :=
  {| session_error := None;
     commit_transaction := fun s _ => Ok (Z.of_nat (length (db_transactions s)) + 1)%Z;
     commit_alert := fun s _ => Ok (Z.of_nat (length (db_alerts s)) + 1)%Z;
     send_fraud_alert := fun _ => true;
     utcnow := mk_datetime 2024 1 15 14 30 0;
     str_of_list := python_repr;
     format_1f := fun q =>
       let n := round_half_even (q * 10) in
       ((if Qlt_bool q 0 then "-" else "") ++ pretty (Z.abs n / 10)%Z ++ "."
          ++ pretty (Z.abs n mod 10)%Z)%string |}.

(** The same backend, except that no alert can be committed. *)
Definition alert_table_down : Backend :=
  {| session_error := None;
     commit_transaction := commit_transaction reference_backend;
     commit_alert := fun _ _ => Raise (ValueError "database is locked");
     send_fraud_alert := send_fraud_alert reference_backend;
     utcnow := utcnow reference_backend;
     str_of_list := str_of_list reference_backend;
     format_1f := format_1f reference_backend |}.

Definition empty_state : ServiceState :=
  {| db_transactions := []; db_alerts := []; notified := [] |}.

(** ** Reference definitions for the properties *)

(** Insertion-ordered de-duplication: every element once, at the place of
    its first occurrence. *)
Fixpoint first_occurrences (seen xs : list string) : list string :=
  match xs with
  | [] => []
  | x :: rest =>
      if bool_decide (x ∈ seen) then first_occurrences seen rest
      else x :: first_occurrences (x :: seen) rest
  end.

Definition insertion_ordered_dedup (xs : list string) : list string :=
  first_occurrences [] xs.

(** The rules of a set that trigger on an event, when no predicate raises,
    and their total weight. *)
Definition triggers (transaction_data : gmap string pyval) (amount : Q)
    (timestamp : pyval) (rule : RiskRule) : bool :=
  match rule_triggered transaction_data amount timestamp rule with
  | Ok b => b
  | Raise _ => false
  end.

Definition sum_weights (rules : list RiskRule) : Q :=
  foldr (fun rule acc => rule_weight rule + acc) 0 rules.

Definition payload (items : list (string * pyval)) : gmap string pyval :=
  list_to_map items.

(** The feature table as the specification documents it (section 4.1),
    for the categorical positions: the code of a payload entry, with the
    default for an absent or unrecognised one. *)
Definition documented_channel (entry : option pyval) : Z :=
  match entry with
  | Some v =>
      if eq_str v "online" then 1
      else if eq_str v "atm" then 2
      else if eq_str v "pos" then 3
      else if eq_str v "mobile" then 4
      else 3
  | None => 3
  end%Z.

Definition documented_country_risk (entry : option pyval) : Q :=
  match entry with
  | Some v =>
      if eq_str v "IE" then 0
      else if in_str_list v eu_countries then 1
      else 2
  | None => 0
  end.

Definition documented_kind (entry : option pyval) : Z :=
  match entry with
  | Some v =>
      if eq_str v "debit" then 1
      else if eq_str v "credit" then 2
      else if eq_str v "transfer" then 3
      else 1
  | None => 1
  end%Z.

Definition documented_category_risk (entry : option pyval) : Q :=
  match entry with
  | Some v => if in_str_list v high_risk_categories then 2 else 1
  | None => 1
  end.

(** ** Sample payloads *)

(** A foreign online purchase at a new merchant, early afternoon. *)
Definition foreign_new_merchant_payload : gmap string pyval :=
  payload [ ("transaction_id", VStr "TXN-1001");
            ("amount", VFloat 2500.00);
            ("channel", VStr "online");
            ("location_country", VStr "US");
            ("merchant_category", VStr "electronics");
            ("is_new_merchant", VBool true);
            ("timestamp", VDatetime (mk_datetime 2024 1 15 14 0 0)) ].

(** A domestic card payment, early afternoon. *)
Definition domestic_payload : gmap string pyval :=
  payload [ ("transaction_id", VStr "TXN-1002");
            ("amount", VFloat 125.50);
            ("channel", VStr "pos");
            ("location_country", VStr "IE");
            ("timestamp", VDatetime (mk_datetime 2024 1 15 14 0 0)) ].

(** A payload whose amount is not a number. *)
Definition malformed_amount_payload : gmap string pyval :=
  payload [ ("transaction_id", VStr "TXN-1003");
            ("amount", VStr "abc");
            ("channel", VStr "pos") ].

(** A payload whose timestamp is not an ISO 8601 string. *)
Definition malformed_timestamp_payload : gmap string pyval :=
  payload [ ("transaction_id", VStr "TXN-1004");
            ("amount", VFloat 10.0);
            ("timestamp", VStr "yesterday") ].

(** A rule set holding one rule with a negative weight, such as a discount
    for ordinary amounts. *)
Definition discount_rules : list RiskRule :=
  [ mk_rule "ordinary_amount" "amount" 0.0 (-1.0) "Transactions of any amount" ].

(** The local variable [final_score] of [analyze_transaction], before it is
    rounded for the report. *)
Definition final_score (rt : Runtime) (self : FraudDetectionEngine)
    (transaction_data : gmap string pyval) : result Q :=
  features ← _extract_features rt transaction_data;
  '(rule_score, _) ← _apply_risk_rules rt self transaction_data;
  ml_score ← _apply_ml_models self features;
  Ok (_combine_scores rule_score ml_score).

(** ** Further reference definitions *)

(** Entry [i] of the single row of a feature matrix. *)
Definition feature (features : list (list Q)) (i : nat) : option Q :=
  features !! 0%nat ≫= fun row => row !! i.

(** The five rule categories the evaluator knows. *)
Definition known_type (rule : RiskRule) : bool :=
  bool_decide (rule_type rule ∈ ["amount"; "location"; "time"; "velocity"; "pattern"]).

(** Two rules with the same name and the same predicate. *)
Definition same_predicate (rule rule' : RiskRule) : Prop :=
  rule_name rule = rule_name rule' /\
  rule_type rule = rule_type rule' /\
  rule_threshold rule = rule_threshold rule'.

(** Every phrase the indicator generator can emit. *)
Definition indicator_vocabulary : list string :=
  [ "Unusually high transaction amount";
    "Transaction outside Ireland";
    "Transaction at unusual time";
    "Multiple rapid transactions";
    "First transaction with this merchant";
    "Amount significantly above normal pattern";
    "Transaction from high-risk country";
    "High-risk merchant category" ].

(** The tiers in increasing order of severity. *)
Definition tier_rank (level : string) : nat :=
  if String.eqb level "critical" then 3
  else if String.eqb level "high" then 2
  else if String.eqb level "medium" then 1
  else 0.

(** The two dictionaries [process_transaction] can return. *)
Definition processed_response (transaction_data : gmap string pyval)
    (analysis_result : AnalysisResult) : ProcessingResponse :=
  {| response_transaction_id := dict_get transaction_data "transaction_id" VNone;
     response_status := "processed";
     response_risk_assessment := Some analysis_result;
     response_requires_review := Some (is_flagged analysis_result);
     response_error := None |}.

Definition error_response (transaction_data : gmap string pyval) (e : exn)
  : ProcessingResponse :=
  {| response_transaction_id := dict_get transaction_data "transaction_id" VNone;
     response_status := "error";
     response_risk_assessment := None;
     response_requires_review := None;
     response_error := Some (str_of_exn e) |}.

(** A flagged foreign purchase of a high amount at a new merchant. *)
Definition high_value_payload : gmap string pyval :=
  payload [ ("transaction_id", VStr "TXN-2001");
            ("amount", VFloat 6000.00);
            ("location_country", VStr "US");
            ("is_new_merchant", VBool true);
            ("timestamp", VDatetime (mk_datetime 2024 1 15 14 0 0)) ].

(** The values a membership test cannot search: [None], booleans, numbers
    and datetimes are not iterable, so [needle in v] raises on them. *)
Definition not_searchable (v : pyval) : bool :=
  match v with
  | VNone | VBool _ | VInt _ | VFloat _ | VDatetime _ => true
  | VStr _ | VList _ => false
  end.

(** The time of an event, as [_extract_features] and [_apply_risk_rules]
    take it from the payload: the datetime under [timestamp], or the
    datetime the ISO string under [timestamp] stands for, or the current
    time when the payload has no such entry. *)
Definition event_time (rt : Runtime) (transaction_data : gmap string pyval)
    (d : datetime) : Prop :=
  match transaction_data !! "timestamp" with
  | Some (VDatetime d') => d' = d
  | Some (VStr s) => fromisoformat rt (replace_Z s) = Some d
  | Some _ => False
  | None => now rt = d
  end.

(** A small domestic payment carrying the given timestamp. *)
Definition timed_payload (timestamp : pyval) : gmap string pyval :=
  payload [ ("transaction_id", VStr "TXN-3001");
            ("amount", VFloat 80.0);
            ("location_country", VStr "IE");
            ("timestamp", timestamp) ].

(** * Properties *)

(** ** Comparisons on rationals *)

Lemma Qle_bool_true (a b : Q) : Qle_bool a b = true <-> a <= b.
Proof. apply Qle_bool_iff. Qed.

Lemma Qle_bool_false (a b : Q) : Qle_bool a b = false <-> b < a.
Proof.
  split; intros H.
  - apply Qnot_le_lt. intros Hle. apply Qle_bool_iff in Hle. congruence.
  - destruct (Qle_bool a b) eqn:E; [|reflexivity].
    apply Qle_bool_iff in E. exfalso. apply (Qlt_not_le _ _ H E).
Qed.

Lemma py_min_le_r (a b : Q) : py_min a b <= b.
Proof. apply Q.le_min_r. Qed.

Lemma py_min_le_l (a b : Q) : py_min a b <= a.
Proof. apply Q.le_min_l. Qed.

Lemma py_min_glb (a b c : Q) : c <= a -> c <= b -> c <= py_min a b.
Proof. intros. apply Q.min_glb; assumption. Qed.

Lemma py_min_cases (a b : Q) : py_min a b == a \/ py_min a b == b.
Proof.
  unfold py_min. destruct (Q.min_spec a b) as [[_ H]|[_ H]]; rewrite H; auto with qarith.
Qed.

Lemma py_max_le_l (a b : Q) : a <= py_max a b.
Proof. apply Q.le_max_l. Qed.

Lemma py_max_lub (a b c : Q) : a <= c -> b <= c -> py_max a b <= c.
Proof. intros. apply Q.max_lub; assumption. Qed.

(** ** Tier classification *)

Lemma determine_risk_level_known (score : Q) :
  _determine_risk_level score <> "unknown".
Proof.
  unfold _determine_risk_level.
  repeat (destruct (Qle_bool _ score); [discriminate|]). discriminate.
Qed.

(** C3: every score gets one tier; critical from 8 up, high on [6, 8),
    medium on [4, 6), low below 4. *)
Theorem determine_risk_level_partition (score : Q) :
  (_determine_risk_level score = "critical" <-> 8 <= score) /\
  (_determine_risk_level score = "high" <-> 6 <= score /\ score < 8) /\
  (_determine_risk_level score = "medium" <-> 4 <= score /\ score < 6) /\
  (_determine_risk_level score = "low" <-> score < 4) /\
  _determine_risk_level score ∈ ["critical"; "high"; "medium"; "low"].
Proof.
  unfold _determine_risk_level.
  destruct (Qle_bool 8.0 score) eqn:E8;
    [apply Qle_bool_true in E8 | apply Qle_bool_false in E8].
  { repeat split; intros; try discriminate; try lra; set_solver. }
  destruct (Qle_bool 6.0 score) eqn:E6;
    [apply Qle_bool_true in E6 | apply Qle_bool_false in E6].
  { repeat split; intros; try discriminate; try lra; set_solver. }
  destruct (Qle_bool 4.0 score) eqn:E4;
    [apply Qle_bool_true in E4 | apply Qle_bool_false in E4].
  { repeat split; intros; try discriminate; try lra; set_solver. }
  repeat split; intros; try discriminate; try lra; set_solver.
Qed.

(** ** Score fusion *)

(** C4: the fused score is the smaller of [r * 0.6 + m * 0.4] and [10]. *)
Theorem combine_scores_formula (r m : Q) :
  _combine_scores r m = Qmin (r * 0.6 + m * 0.4) 10.0 /\
  _combine_scores r m <= r * 0.6 + m * 0.4 /\
  _combine_scores r m <= 10 /\
  (_combine_scores r m == r * 0.6 + m * 0.4 \/ _combine_scores r m == 10).
Proof.
  unfold _combine_scores. cbv zeta. split; [reflexivity|].
  split; [apply py_min_le_l|]. split.
  - pose proof (py_min_le_r (r * 0.6 + m * 0.4) 10.0). lra.
  - destruct (py_min_cases (r * 0.6 + m * 0.4) 10.0) as [H|H]; [left|right]; lra.
Qed.

(** ** The pipeline, stage by stage *)

Lemma bind_Ok {A B : Type} (a : A) (k : A -> result B) : (Ok a ≫= k) = k a.
Proof. reflexivity. Qed.

Lemma bind_Raise {A B : Type} (e : exn) (k : A -> result B) :
  (Raise e ≫= k) = Raise e.
Proof. reflexivity. Qed.

Lemma bind_inv_Ok {A B : Type} (m : result A) (k : A -> result B) (b : B) :
  (m ≫= k) = Ok b -> exists a, m = Ok a /\ k a = Ok b.
Proof. destruct m as [a|e]; [eauto | discriminate]. Qed.

Ltac bind_inv H :=
  let a := fresh "x" in
  let Ha := fresh "E" in
  apply bind_inv_Ok in H; destruct H as (a & Ha & H).

(** A feature matrix has one row of eight entries. *)
Lemma extract_features_shape (rt : Runtime) (transaction_data : gmap string pyval)
    (features : list (list Q)) :
  _extract_features rt transaction_data = Ok features ->
  exists row, features = [row] /\ length row = 8%nat.
Proof.
  unfold _extract_features. intros H.
  do 7 bind_inv H. inversion H. eexists; split; reflexivity.
Qed.

Lemma index_Ok {A : Type} (xs : list A) (i : nat) :
  (i < length xs)%nat -> exists x, index xs i = Ok x.
Proof.
  intros Hi. unfold index. destruct (lookup_lt_is_Some_2 xs i Hi) as [x ->]. eauto.
Qed.

Lemma collect_indicators_Ok (triggered : list string) (row : list Q)
    (rest : list (list Q)) :
  (7 <= length row)%nat ->
  exists indicators, collect_indicators triggered (row :: rest) = Ok indicators.
Proof.
  intros Hlen. unfold collect_indicators. simpl.
  destruct (index_Ok row 0 ltac:(lia)) as [f0 ->].
  destruct (index_Ok row 4 ltac:(lia)) as [f4 ->].
  destruct (index_Ok row 6 ltac:(lia)) as [f6 ->].
  simpl. eauto.
Qed.

Lemma generate_fraud_indicators_Ok (rt : Runtime) (triggered : list string)
    (row : list Q) (rest : list (list Q)) :
  (7 <= length row)%nat ->
  exists out, _generate_fraud_indicators rt triggered (row :: rest) = Ok out.
Proof.
  intros Hlen. unfold _generate_fraud_indicators.
  destruct (collect_indicators_Ok triggered row rest Hlen) as [inds ->].
  simpl. eauto.
Qed.

(** The statistical scorer always answers. *)
Lemma apply_ml_models_Ok (self : FraudDetectionEngine) (features : list (list Q)) :
  exists s, _apply_ml_models self features = Ok s.
Proof.
  unfold _apply_ml_models, py_try.
  destruct (ml_models_body self features); eauto.
Qed.

Lemma apply_ml_models_fallback (self : FraudDetectionEngine)
    (features : list (list Q)) (e : exn) :
  ml_models_body self features = Raise e ->
  _apply_ml_models self features = Ok 0.0.
Proof. intros H. unfold _apply_ml_models. rewrite H. reflexivity. Qed.

(** Once the features and the rule score are there, the [try] block runs
    to its end. *)
Lemma analysis_body_Ok (rt : Runtime) (settings : Settings)
    (self : FraudDetectionEngine) (transaction_data : gmap string pyval)
    (features : list (list Q)) (rs : Q) (triggered : list string) :
  _extract_features rt transaction_data = Ok features ->
  _apply_risk_rules rt self transaction_data = Ok (rs, triggered) ->
  exists ml indicators,
    _apply_ml_models self features = Ok ml /\
    _generate_fraud_indicators rt triggered features = Ok indicators /\
    analysis_body rt settings self transaction_data =
      Ok {| transaction_id := dict_get transaction_data "transaction_id" VNone;
            risk_score := py_round (_combine_scores rs ml) 2;
            risk_level := _determine_risk_level (_combine_scores rs ml);
            is_flagged := Qle_bool (FRAUD_THRESHOLD settings) (_combine_scores rs ml);
            fraud_indicators := indicators;
            triggered_rules := Some triggered;
            ml_score := Some (py_round ml 2);
            rule_score := Some (py_round rs 2);
            analysis_timestamp := Some (utcnow_isoformat rt);
            error := None |}.
Proof.
  intros Hf Hr.
  destruct (extract_features_shape _ _ _ Hf) as (row & -> & Hlen).
  destruct (apply_ml_models_Ok self [row]) as [ml Hml].
  destruct (generate_fraud_indicators_Ok rt triggered row [] ltac:(lia)) as [out Hout].
  exists ml, out. split; [exact Hml|]. split; [exact Hout|].
  unfold analysis_body. rewrite Hf, bind_Ok, Hr, bind_Ok, Hml, bind_Ok.
  cbv zeta. rewrite Hout. reflexivity.
Qed.

(** ** Failure handling of the orchestrator *)

(** C1: [analyze_transaction] always returns a result; when a stage of the
    pipeline raises, the result is the degraded one: score 0.0, tier
    unknown, not flagged, no indicators, and the text of the exception. *)
Theorem analyze_never_raises (rt : Runtime) (settings : Settings)
    (self : FraudDetectionEngine) (transaction_data : gmap string pyval) :
  exists r,
    analyze_transaction rt settings self transaction_data = Ok r /\
    (forall e, analysis_body rt settings self transaction_data = Raise e ->
       r = degraded_result transaction_data e) /\
    (forall e, _extract_features rt transaction_data = Raise e ->
       r = degraded_result transaction_data e) /\
    (forall features e,
       _extract_features rt transaction_data = Ok features ->
       _apply_risk_rules rt self transaction_data = Raise e ->
       r = degraded_result transaction_data e) /\
    (forall features rs triggered e,
       _extract_features rt transaction_data = Ok features ->
       _apply_risk_rules rt self transaction_data = Ok (rs, triggered) ->
       _generate_fraud_indicators rt triggered features = Raise e ->
       r = degraded_result transaction_data e) /\
    (forall e,
       risk_score (degraded_result transaction_data e) = 0.0 /\
       risk_level (degraded_result transaction_data e) = "unknown" /\
       is_flagged (degraded_result transaction_data e) = false /\
       fraud_indicators (degraded_result transaction_data e) = [] /\
       error (degraded_result transaction_data e) = Some (str_of_exn e)).
Proof.
  unfold analyze_transaction, py_try.
  destruct (analysis_body rt settings self transaction_data) as [r|e0] eqn:Hbody.
  - exists r. split; [reflexivity|].
    split; [intros e He; discriminate|].
    split.
    { intros e He. unfold analysis_body in Hbody.
      rewrite He in Hbody. discriminate. }
    split.
    { intros f e Hf He. unfold analysis_body in Hbody.
      rewrite Hf, bind_Ok, He in Hbody. discriminate. }
    split; [|intros e; repeat split].
    intros f rs tr e Hf Hr He. unfold analysis_body in Hbody.
    rewrite Hf, bind_Ok, Hr, bind_Ok in Hbody.
    destruct (apply_ml_models_Ok self f) as [ml Hml].
    rewrite Hml, bind_Ok in Hbody. cbv zeta in Hbody.
    rewrite He in Hbody. discriminate.
  - exists (degraded_result transaction_data e0). split; [reflexivity|].
    split; [intros e He; congruence|].
    split.
    { intros e He. unfold analysis_body in Hbody.
      rewrite He in Hbody. simpl in Hbody. congruence. }
    split.
    { intros f e Hf He. unfold analysis_body in Hbody.
      rewrite Hf, bind_Ok, He in Hbody. simpl in Hbody. congruence. }
    split; [|intros e; repeat split].
    intros f rs tr e Hf Hr He. unfold analysis_body in Hbody.
    rewrite Hf, bind_Ok, Hr, bind_Ok in Hbody.
    destruct (apply_ml_models_Ok self f) as [ml Hml].
    rewrite Hml, bind_Ok in Hbody. cbv zeta in Hbody.
    rewrite He in Hbody. simpl in Hbody. congruence.
Qed.

(** ** Failure of a statistical sub-model *)

(** C7: when the anomaly model or the classifier raises on the scaled
    features, the scorer answers 0.0 and [analyze_transaction] returns a
    regular result whose final score comes from the rule score alone. *)
Theorem ml_failure_leaves_rule_score (rt : Runtime) (settings : Settings)
    (self : FraudDetectionEngine) (transaction_data : gmap string pyval)
    (features scaled : list (list Q)) (rs : Q) (triggered : list string) :
  _extract_features rt transaction_data = Ok features ->
  _apply_risk_rules rt self transaction_data = Ok (rs, triggered) ->
  scaler_transform (models self) features = Ok scaled ->
  ((exists e, anomaly_decision_function (models self) scaled = Raise e) \/
   (exists e, classifier_predict_proba (models self) scaled = Raise e)) ->
  _apply_ml_models self features = Ok 0.0 /\
  exists r,
    analyze_transaction rt settings self transaction_data = Ok r /\
    risk_level r <> "unknown" /\
    error r = None /\
    triggered_rules r = Some triggered /\
    risk_score r = py_round (_combine_scores rs 0.0) 2 /\
    risk_level r = _determine_risk_level (_combine_scores rs 0.0) /\
    _combine_scores rs 0.0 == Qmin (rs * 0.6) 10.
Proof.
  intros Hf Hr Hs Hraise.
  assert (Hml : _apply_ml_models self features = Ok 0.0).
  { assert (exists e, ml_models_body self features = Raise e) as [e He].
    { unfold ml_models_body. rewrite Hs, bind_Ok.
      destruct Hraise as [[e He]|[e He]].
      - rewrite He. eauto.
      - destruct (anomaly_decision_function (models self) scaled) as [a|e'].
        + rewrite bind_Ok. cbv zeta. rewrite He. eauto.
        + eauto. }
    eapply apply_ml_models_fallback, He. }
  split; [exact Hml|].
  destruct (analysis_body_Ok rt settings self transaction_data features rs
              triggered Hf Hr) as (ml & inds & Hml' & _ & Hbody).
  rewrite Hml in Hml'. inversion Hml'; subst ml.
  eexists. split.
  { unfold analyze_transaction. rewrite Hbody. reflexivity. }
  simpl. split.
  { apply determine_risk_level_known. }
  repeat split.
  unfold _combine_scores, py_min. cbv zeta.
  apply Q.min_compat; [ring | reflexivity].
Qed.

Lemma ml_failure_leaves_rule_score_witness :
  exists r,
    analyze_transaction reference_runtime default_settings
      (init_engine (raising_models 0.2)) foreign_new_merchant_payload = Ok r /\
    risk_level r = "low" /\
    risk_score r == 1.8 /\
    error r = None.
Proof.
  edestruct (ml_failure_leaves_rule_score reference_runtime default_settings
               (init_engine (raising_models 0.2)) foreign_new_merchant_payload)
    as (_ & r & Hr & _ & Herr & _ & Hscore & Hlevel & _).
  - vm_compute. reflexivity.
  - vm_compute. reflexivity.
  - reflexivity.
  - left. eexists. reflexivity.
  - exists r. split; [exact Hr|].
    split; [rewrite Hlevel; vm_compute; reflexivity|].
    split; [rewrite Hscore; vm_compute; reflexivity | exact Herr].
Defined.

(** ** Rule evaluation *)

Lemma triggers_Ok (transaction_data : gmap string pyval) (amount : Q)
    (timestamp : pyval) (rule : RiskRule) (b : bool) :
  rule_triggered transaction_data amount timestamp rule = Ok b ->
  triggers transaction_data amount timestamp rule = b.
Proof. intros H. unfold triggers. rewrite H. reflexivity. Qed.

(** The loop adds the weights of the triggering rules to the running total
    and their names, in order, to the running list. *)
Lemma rules_loop_spec (transaction_data : gmap string pyval) (amount : Q)
    (timestamp : pyval) (rules : list RiskRule) :
  Forall (fun rule => exists b,
            rule_triggered transaction_data amount timestamp rule = Ok b) rules ->
  forall (total : Q) (names : list string),
  exists score,
    rules_loop transaction_data amount timestamp rules total names =
      Ok (score,
          names ++ (rule_name <$>
                      List.filter (triggers transaction_data amount timestamp) rules)) /\
    score == total + sum_weights
                       (List.filter (triggers transaction_data amount timestamp) rules).
Proof.
  induction 1 as [|rule rest [b Hb] _ IH]; intros total names.
  - exists total. simpl. rewrite app_nil_r. split; [reflexivity | ring].
  - simpl. rewrite Hb, bind_Ok, (triggers_Ok _ _ _ _ _ Hb).
    destruct b.
    + destruct (IH (total + rule_weight rule) (names ++ [rule_name rule]))
        as (score & Hloop & Hscore).
      exists score. rewrite Hloop, <- app_assoc. split; [reflexivity|].
      rewrite Hscore. simpl. ring.
    + apply IH.
Qed.

(** On an event whose timestamp is a datetime and whose history hint can
    be searched, no predicate raises. *)
Lemma rule_triggered_Ok (transaction_data : gmap string pyval) (amount : Q)
    (d : datetime) (hint : bool) (rules : list RiskRule) :
  str_in "rapid" (dict_get transaction_data "fraud_indicators" (VStr "")) = Ok hint ->
  Forall (fun rule => exists b,
            rule_triggered transaction_data amount (VDatetime d) rule = Ok b) rules.
Proof.
  intros Hhint. apply Forall_forall. intros rule _. unfold rule_triggered.
  repeat (destruct (String.eqb (rule_type rule) _); [simpl; eauto|]).
  eauto.
Qed.

Lemma rules_loop_Raise (transaction_data : gmap string pyval) (amount : Q)
    (timestamp : pyval) (rules : list RiskRule) (rule : RiskRule) (e : exn) :
  rule ∈ rules ->
  rule_triggered transaction_data amount timestamp rule = Raise e ->
  forall (total : Q) (names : list string),
  exists e', rules_loop transaction_data amount timestamp rules total names = Raise e'.
Proof.
  induction rules as [|r rest IH]; intros Hin He total names.
  - inversion Hin.
  - simpl. destruct (rule_triggered transaction_data amount timestamp r) as [b|e'] eqn:Hr.
    + rewrite bind_Ok.
      assert (rule ∈ rest) as Hin'.
      { apply elem_of_cons in Hin as [->|Hin]; [congruence | exact Hin]. }
      destruct b; apply IH; assumption.
    + eauto.
Qed.

Lemma NoDup_names_filter (f : RiskRule -> bool) (rules : list RiskRule) :
  NoDup (rule_name <$> rules) -> NoDup (rule_name <$> List.filter f rules).
Proof.
  induction rules as [|r rest IH]; simpl; intros Hnd; [constructor|].
  apply NoDup_cons in Hnd as [Hnotin Hnd].
  destruct (f r); simpl; [|auto].
  apply NoDup_cons. split; [|auto].
  intros Hin. apply Hnotin.
  apply list_elem_of_fmap in Hin as (r' & -> & Hr').
  apply list_elem_of_fmap. exists r'. split; [reflexivity|].
  apply list_elem_of_In. apply list_elem_of_In in Hr'.
  apply filter_In in Hr'. tauto.
Qed.

(** C5: when the amount and the timestamp are read and no predicate
    raises, the evaluator returns the capped sum of the weights of the
    triggering rules and their names in rule-set order; with unique rule
    names the list has no duplicate. *)
Theorem apply_risk_rules_sum_and_order (rt : Runtime)
    (self : FraudDetectionEngine) (transaction_data : gmap string pyval)
    (amount : Q) (timestamp : pyval) :
  py_float rt (dict_get transaction_data "amount" (VInt 0)) = Ok amount ->
  read_timestamp rt transaction_data = Ok timestamp ->
  Forall (fun rule => exists b,
            rule_triggered transaction_data amount timestamp rule = Ok b)
         (risk_rules self) ->
  NoDup (rule_name <$> risk_rules self) ->
  let hit := List.filter (triggers transaction_data amount timestamp)
                         (risk_rules self) in
  exists score,
    _apply_risk_rules rt self transaction_data = Ok (score, rule_name <$> hit) /\
    score == Qmin (sum_weights hit) 10 /\
    NoDup (rule_name <$> hit).
Proof.
  intros Ha Ht Hall Hnd hit.
  destruct (rules_loop_spec transaction_data amount timestamp (risk_rules self)
              Hall 0.0 []) as (total & Hloop & Htotal).
  exists (py_min total 10.0). split.
  { unfold _apply_risk_rules. rewrite Ha, bind_Ok, Ht, bind_Ok, Hloop. reflexivity. }
  split.
  { unfold py_min. apply Q.min_compat; [|reflexivity].
    rewrite Htotal. fold hit. ring. }
  apply NoDup_names_filter, Hnd.
Qed.

Lemma apply_risk_rules_sum_and_order_witness :
  exists score,
    _apply_risk_rules reference_runtime (init_engine (constant_models 0.1 0.2))
      foreign_new_merchant_payload
    = Ok (score, ["foreign_transaction"; "new_merchant"]) /\
    score == 3.
Proof.
  destruct (apply_risk_rules_sum_and_order reference_runtime
              (init_engine (constant_models 0.1 0.2))
              foreign_new_merchant_payload 2500.00
              (VDatetime (mk_datetime 2024 1 15 14 0 0)))
    as (score & Hres & Hscore & _).
  - reflexivity.
  - reflexivity.
  - repeat constructor; eexists; vm_compute; reflexivity.
  - apply (bool_decide_unpack _). vm_compute. exact I.
  - exists score. split; [exact Hres|]. rewrite Hscore. vm_compute. reflexivity.
Defined.

(** ** The time rule *)

Lemma event_time_read (rt : Runtime) (transaction_data : gmap string pyval)
    (d : datetime) :
  event_time rt transaction_data d ->
  read_timestamp rt transaction_data = Ok (VDatetime d).
Proof.
  unfold event_time, read_timestamp, dict_get.
  destruct (transaction_data !! "timestamp") as [[| | | |s|d'|]|];
    cbn [default from_option id]; intros H; try contradiction.
  - rewrite H. reflexivity.
  - subst d'. reflexivity.
  - subst d. reflexivity.
Qed.

(** The predicate of a rule of category [time] on a datetime. *)
Lemma rule_triggered_time (transaction_data : gmap string pyval) (amount : Q)
    (d : datetime) (rule : RiskRule) :
  rule_type rule = "time" ->
  rule_triggered transaction_data amount (VDatetime d) rule
  = Ok (bool_decide (22 <= dt_hour d \/ dt_hour d <= 6)%Z).
Proof.
  intros Ht. unfold rule_triggered. rewrite Ht. simpl.
  destruct (Z.leb_spec 22 (dt_hour d)); destruct (Z.leb_spec (dt_hour d) 6);
    simpl; f_equal; symmetry;
    first [apply bool_decide_eq_true; lia | apply bool_decide_eq_false; lia].
Qed.

Lemma NoDup_names_inj (rules : list RiskRule) (rule rule' : RiskRule) :
  NoDup (rule_name <$> rules) ->
  rule ∈ rules -> rule' ∈ rules -> rule_name rule = rule_name rule' ->
  rule = rule'.
Proof.
  induction rules as [|r rest IH]; intros Hnd Hin Hin' Hname; [inversion Hin|].
  simpl in Hnd. apply NoDup_cons in Hnd as [Hnotin Hnd].
  apply elem_of_cons in Hin as [->|Hin]; apply elem_of_cons in Hin' as [->|Hin'].
  - reflexivity.
  - exfalso. apply Hnotin. rewrite Hname. apply list_elem_of_fmap. eauto.
  - exfalso. apply Hnotin. rewrite <- Hname. apply list_elem_of_fmap. eauto.
  - auto.
Qed.

(** C9: on an event the evaluator can read, a rule of category [time] is
    among the triggered rules exactly when the hour of the event's own
    timestamp is 22 or later, or 6 or earlier. *)
Theorem time_rule_window (rt : Runtime) (self : FraudDetectionEngine)
    (transaction_data : gmap string pyval) (amount : Q) (d : datetime)
    (hint : bool) (rule : RiskRule) :
  py_float rt (dict_get transaction_data "amount" (VInt 0)) = Ok amount ->
  event_time rt transaction_data d ->
  str_in "rapid" (dict_get transaction_data "fraud_indicators" (VStr "")) = Ok hint ->
  NoDup (rule_name <$> risk_rules self) ->
  rule ∈ risk_rules self ->
  rule_type rule = "time" ->
  exists score names,
    _apply_risk_rules rt self transaction_data = Ok (score, names) /\
    (rule_name rule ∈ names <-> (22 <= dt_hour d \/ dt_hour d <= 6)%Z) /\
    (rule_name rule ∉ names <-> (6 < dt_hour d < 22)%Z).
Proof.
  intros Ha Htime Hhint Hnd Hin Ht.
  pose proof (event_time_read _ _ _ Htime) as Hts.
  pose proof (rule_triggered_Ok transaction_data amount d hint (risk_rules self)
                Hhint) as Hall.
  destruct (rules_loop_spec _ _ _ _ Hall 0.0 []) as (total & Hloop & _).
  exists (py_min total 10.0). eexists. split.
  { unfold _apply_risk_rules. rewrite Ha, bind_Ok, Hts, bind_Ok, Hloop.
    reflexivity. }
  assert (Hiff : rule_name rule
                   ∈ [] ++ (rule_name <$>
                              List.filter
                                (triggers transaction_data amount (VDatetime d))
                                (risk_rules self))
                 <-> (22 <= dt_hour d \/ dt_hour d <= 6)%Z).
  { change ([] ++ ?l) with l.
    assert (Htrig : triggers transaction_data amount (VDatetime d) rule = true
                    <-> (22 <= dt_hour d \/ dt_hour d <= 6)%Z).
    { unfold triggers. rewrite (rule_triggered_time _ _ _ _ Ht).
      apply bool_decide_eq_true. }
    rewrite <- Htrig. split.
    - intros Hname. apply list_elem_of_fmap in Hname as (rule' & Hname & Hmem).
      apply list_elem_of_In, filter_In in Hmem as [Hmem Htr].
      apply list_elem_of_In in Hmem.
      rewrite (NoDup_names_inj _ _ _ Hnd Hin Hmem Hname). exact Htr.
    - intros Htr. apply list_elem_of_fmap. exists rule. split; [reflexivity|].
      apply list_elem_of_In, filter_In. split; [|exact Htr].
      apply list_elem_of_In. exact Hin. }
  split; [exact Hiff|].
  rewrite Hiff. lia.
Qed.

Lemma time_rule_window_witness :
  let engine := init_engine (constant_models 0.1 0.2) in
  (exists score names,
     _apply_risk_rules reference_runtime engine
       (timed_payload (VStr "2024-01-15T23:15:00Z")) = Ok (score, names) /\
     "unusual_time" ∈ names) /\
  (exists score names,
     _apply_risk_rules reference_runtime engine
       (timed_payload (VDatetime (mk_datetime 2024 1 15 6 59 0))) = Ok (score, names) /\
     "unusual_time" ∈ names) /\
  (exists score names,
     _apply_risk_rules reference_runtime engine
       (timed_payload (VDatetime (mk_datetime 2024 1 15 7 0 0))) = Ok (score, names) /\
     "unusual_time" ∉ names).
Proof.
  cbv zeta.
  pose proof (fun ts d He =>
                time_rule_window reference_runtime
                  (init_engine (constant_models 0.1 0.2)) (timed_payload ts)
                  80.0 d false
                  (mk_rule "unusual_time" "time" 1.0 1.5
                     "Transactions outside normal hours (22:00-06:00)")
                  eq_refl He eq_refl) as Hwin.
  assert (Hnd : NoDup (rule_name <$> risk_rules (init_engine (constant_models 0.1 0.2)))).
  { apply (bool_decide_unpack _). vm_compute. exact I. }
  assert (Hin : mk_rule "unusual_time" "time" 1.0 1.5
                  "Transactions outside normal hours (22:00-06:00)"
                ∈ risk_rules (init_engine (constant_models 0.1 0.2))).
  { apply list_elem_of_In. simpl. tauto. }
  split; [|split].
  - destruct (Hwin (VStr "2024-01-15T23:15:00Z") (mk_datetime 2024 1 15 23 15 0)
                eq_refl Hnd Hin eq_refl) as (score & names & Hres & Hyes & _).
    exists score, names. split; [exact Hres|]. apply Hyes. simpl. lia.
  - destruct (Hwin (VDatetime (mk_datetime 2024 1 15 6 59 0))
                (mk_datetime 2024 1 15 6 59 0)
                eq_refl Hnd Hin eq_refl) as (score & names & Hres & Hyes & _).
    exists score, names. split; [exact Hres|]. apply Hyes. simpl. lia.
  - destruct (Hwin (VDatetime (mk_datetime 2024 1 15 7 0 0))
                (mk_datetime 2024 1 15 7 0 0)
                eq_refl Hnd Hin eq_refl) as (score & names & Hres & _ & Hno).
    exists score, names. split; [exact Hres|]. apply Hno. simpl. lia.
Defined.

(** ** Indicator generation *)

Lemma first_occurrences_elem (xs seen : list string) (x : string) :
  x ∈ first_occurrences seen xs <-> x ∈ xs /\ x ∉ seen.
Proof.
  revert seen. induction xs as [|y rest IH]; intros seen; simpl.
  - split; [intros H; inversion H | intros [H _]; inversion H].
  - case_bool_decide as Hy.
    + rewrite IH, elem_of_cons. split; [tauto|].
      intros [[->|H] Hn]; [contradiction | tauto].
    + rewrite !elem_of_cons, IH, elem_of_cons. split.
      * intros [->|[H Hn]]; [tauto|]. split; [tauto|]. intros Hs. apply Hn. tauto.
      * intros [[->|H] Hn]; [tauto|].
        destruct (decide (x = y)) as [->|Hne]; [tauto|]. right. tauto.
Qed.

Lemma first_occurrences_NoDup (xs seen : list string) :
  NoDup (first_occurrences seen xs).
Proof.
  revert seen. induction xs as [|y rest IH]; intros seen; simpl; [constructor|].
  case_bool_decide as Hy; [apply IH|].
  apply NoDup_cons. split; [|apply IH].
  rewrite first_occurrences_elem, elem_of_cons. tauto.
Qed.

Lemma insertion_ordered_dedup_elem (xs : list string) (x : string) :
  x ∈ insertion_ordered_dedup xs <-> x ∈ xs.
Proof.
  unfold insertion_ordered_dedup. rewrite first_occurrences_elem.
  split; [tauto|]. intros H. split; [exact H|]. intros Hn. inversion Hn.
Qed.

Lemma list_of_set_Permutation (h : string -> Z) (xs : list string) :
  list_of_set h xs ≡ₚ remove_dups xs.
Proof. apply merge_sort_Permutation. Qed.

Lemma list_of_set_NoDup (h : string -> Z) (xs : list string) :
  NoDup (list_of_set h xs).
Proof.
  rewrite list_of_set_Permutation. apply NoDup_remove_dups.
Qed.

Lemma list_of_set_elem (h : string -> Z) (xs : list string) (x : string) :
  x ∈ list_of_set h xs <-> x ∈ xs.
Proof.
  rewrite list_of_set_Permutation. apply elem_of_remove_dups.
Qed.

Lemma list_of_set_dedup (h : string -> Z) (xs : list string) :
  list_of_set h xs ≡ₚ insertion_ordered_dedup xs.
Proof.
  apply NoDup_Permutation.
  - apply list_of_set_NoDup.
  - apply first_occurrences_NoDup.
  - intros x. rewrite list_of_set_elem, insertion_ordered_dedup_elem. reflexivity.
Qed.

(** C6, as the code has it: the generator returns each collected phrase
    once; the list is a rearrangement of the insertion-ordered
    de-duplication, in the iteration order of a set, which is fixed by the
    string hash of the running process. *)
Theorem generate_fraud_indicators_dedup (rt : Runtime)
    (triggered : list string) (row : list Q) (rest : list (list Q)) :
  (7 <= length row)%nat ->
  exists indicators out,
    collect_indicators triggered (row :: rest) = Ok indicators /\
    _generate_fraud_indicators rt triggered (row :: rest) = Ok out /\
    NoDup out /\
    (forall phrase, phrase ∈ out <-> phrase ∈ indicators) /\
    out ≡ₚ insertion_ordered_dedup indicators /\
    (forall rt', str_hash rt' = str_hash rt ->
       _generate_fraud_indicators rt' triggered (row :: rest) = Ok out).
Proof.
  intros Hlen.
  destruct (collect_indicators_Ok triggered row rest Hlen) as [inds Hinds].
  exists inds, (list_of_set (str_hash rt) inds).
  split; [exact Hinds|].
  unfold _generate_fraud_indicators. rewrite Hinds, bind_Ok.
  split; [reflexivity|].
  split; [apply list_of_set_NoDup|].
  split; [intros p; apply list_of_set_elem|].
  split; [apply list_of_set_dedup|].
  intros rt' ->. reflexivity.
Qed.

Lemma generate_fraud_indicators_dedup_witness :
  exists out,
    _generate_fraud_indicators reference_runtime
      ["foreign_transaction"; "new_merchant"; "foreign_transaction"]
      [[0; 14; 0; 1; 2; 1; 1; 0]] = Ok out /\
    NoDup out /\
    out ≡ₚ [ "Transaction outside Ireland";
             "First transaction with this merchant";
             "Transaction from high-risk country" ].
Proof.
  destruct (generate_fraud_indicators_dedup reference_runtime
              ["foreign_transaction"; "new_merchant"; "foreign_transaction"]
              [0; 14; 0; 1; 2; 1; 1; 0] [])
    as (inds & out & Hinds & Hout & Hnd & _ & Hperm & _).
  - simpl. lia.
  - exists out. split; [exact Hout|]. split; [exact Hnd|].
    vm_compute in Hinds. inversion Hinds; subst inds. exact Hperm.
Defined.

(** C6, as stated, fails on the order: with two triggered rules the phrases
    come out in an order other than that of their insertion, and a process
    with another hash seed returns them in another order again. *)
Lemma generate_fraud_indicators_order_counterexample :
  let triggered := ["foreign_transaction"; "new_merchant"] in
  let features := [[0; 14; 0; 1; 1; 1; 1; 0]] in
  exists indicators out out',
    collect_indicators triggered features = Ok indicators /\
    _generate_fraud_indicators (seeded_runtime 0) triggered features = Ok out /\
    _generate_fraud_indicators (seeded_runtime 2) triggered features = Ok out' /\
    out <> insertion_ordered_dedup indicators /\
    out <> out'.
Proof.
  cbv zeta. do 3 eexists.
  split; [vm_compute; reflexivity|].
  split; [vm_compute; reflexivity|].
  split; [vm_compute; reflexivity|].
  split; vm_compute; discriminate.
Qed.

(** ** Score ranges *)

Lemma sum_weights_nonneg (rules : list RiskRule) :
  Forall (fun rule => 0 <= rule_weight rule) rules -> 0 <= sum_weights rules.
Proof.
  unfold sum_weights.
  induction 1 as [|rule rest Hw _ IH]; simpl; lra.
Qed.

Lemma load_risk_rules_weights : Forall (fun rule => 0 <= rule_weight rule) load_risk_rules.
Proof. repeat constructor; simpl; lra. Qed.

(** With weights that are not negative the rule score lies in [0, 10]. *)
Lemma rule_score_bounds (rt : Runtime) (self : FraudDetectionEngine)
    (transaction_data : gmap string pyval) (rs : Q) (names : list string) :
  Forall (fun rule => 0 <= rule_weight rule) (risk_rules self) ->
  _apply_risk_rules rt self transaction_data = Ok (rs, names) ->
  0 <= rs /\ rs <= 10.
Proof.
  intros Hw H. unfold _apply_risk_rules in H.
  bind_inv H. bind_inv H. bind_inv H. destruct x1 as [total trig].
  inversion H; subst rs names. clear H.
  split; [|pose proof (py_min_le_r total 10.0); lra].
  apply py_min_glb; [|lra].
  assert (Hgen : forall rules t0 nm t1 nm1,
             Forall (fun rule => 0 <= rule_weight rule) rules -> 0 <= t0 ->
             rules_loop transaction_data x x0 rules t0 nm = Ok (t1, nm1) ->
             0 <= t1).
  { clear. induction rules as [|r rest IH]; intros t0 nm t1 nm1 Hw Ht0 Hl; simpl in Hl.
    - inversion Hl; subst; exact Ht0.
    - apply Forall_cons in Hw as [Hr Hw]. bind_inv Hl. destruct x1.
      + eapply IH; [exact Hw | | exact Hl]. lra.
      + eapply IH; [exact Hw | exact Ht0 | exact Hl]. }
  eapply Hgen; [exact Hw | | exact E1]. lra.
Qed.

(** With a classifier that answers probabilities the model score lies in
    [0, 10]. *)
Lemma ml_score_bounds (self : FraudDetectionEngine) (features : list (list Q)) :
  (forall X p, classifier_predict_proba (models self) X = Ok p -> 0 <= p /\ p <= 1) ->
  exists s, _apply_ml_models self features = Ok s /\ 0 <= s /\ s <= 10.
Proof.
  intros Hp. unfold _apply_ml_models, py_try.
  destruct (ml_models_body self features) as [s|e] eqn:Hbody.
  - exists s. split; [reflexivity|].
    unfold ml_models_body in Hbody. do 3 bind_inv Hbody.
    inversion Hbody; subst s. clear Hbody.
    destruct (Hp _ _ E1) as [Hp0 Hp1].
    pose proof (py_max_le_l 0 (py_min 10 ((0.5 - x0) * 5))) as Hlo.
    assert (Hhi : py_max 0 (py_min 10 ((0.5 - x0) * 5)) <= 10).
    { apply py_max_lub; [lra | apply py_min_le_l]. }
    split.
    + apply Qle_shift_div_l; lra.
    + apply Qle_shift_div_r; lra.
  - exists 0.0. split; [reflexivity | lra].
Qed.

Lemma combine_scores_bounds (r m : Q) :
  0 <= r -> 0 <= m -> 0 <= _combine_scores r m /\ _combine_scores r m <= 10.
Proof.
  intros Hr Hm. unfold _combine_scores. cbv zeta. split.
  - apply py_min_glb; lra.
  - pose proof (py_min_le_r (r * 0.6 + m * 0.4) 10.0). lra.
Qed.

(** With the built-in rules and a classifier that answers probabilities the
    fused score lies in [0, 10]. *)
Lemma builtin_rules_final_score_bounds (rt : Runtime) (fitted : Models)
    (transaction_data : gmap string pyval) (final : Q) :
  (forall X p, classifier_predict_proba fitted X = Ok p -> 0 <= p /\ p <= 1) ->
  final_score rt (init_engine fitted) transaction_data = Ok final ->
  0 <= final /\ final <= 10.
Proof.
  intros Hp H. unfold final_score in H.
  bind_inv H. bind_inv H. destruct x0 as [rs names]. bind_inv H.
  inversion H; subst final. clear H.
  destruct (rule_score_bounds rt (init_engine fitted) transaction_data rs names
              load_risk_rules_weights E0) as [Hrs _].
  destruct (ml_score_bounds (init_engine fitted) x Hp) as (s & Hs & Hs0 & _).
  rewrite E1 in Hs. inversion Hs; subst s.
  apply combine_scores_bounds; assumption.
Qed.

(** C2 at a rule set with a negative weight: whatever the fitted models
    are, the rule score falls below 0; with models that add nothing, so do
    the fused score and the reported score. *)
Theorem negative_weight_breaks_score_range :
  (forall fitted : Models,
     exists rs names,
       _apply_risk_rules reference_runtime
         (update_risk_rules (init_engine fitted) discount_rules) domestic_payload
       = Ok (rs, names) /\
       rs == - (1) /\ ~ 0 <= rs) /\
  (let self :=
     update_risk_rules (init_engine (constant_models 0.5 0)) discount_rules in
   exists final r,
     final_score reference_runtime self domestic_payload = Ok final /\
     final == - (6 # 10) /\ ~ 0 <= final /\
     analyze_transaction reference_runtime default_settings self domestic_payload
     = Ok r /\
     risk_level r = "low" /\
     rule_score r = Some (-100 # 100) /\
     ~ 0 <= risk_score r).
Proof.
  split.
  - intros fitted. do 2 eexists.
    split; [vm_compute; reflexivity|].
    split; [vm_compute; reflexivity|].
    vm_compute. intros H. apply H. reflexivity.
  - cbv zeta. do 2 eexists.
    split; [vm_compute; reflexivity|].
    split; [vm_compute; reflexivity|].
    split; [vm_compute; intros H; apply H; reflexivity|].
    split; [vm_compute; reflexivity|].
    split; [vm_compute; reflexivity|].
    split; [vm_compute; reflexivity|].
    vm_compute. intros H. apply H. reflexivity.
Qed.

(** ** Feature extraction: defaults and failures *)

Lemma list_to_map_lookup_str (table : list (string * Z)) (s : string) :
  (list_to_map table : gmap string Z) !! s =
  snd <$> List.find (fun kv => String.eqb s (fst kv)) table.
Proof.
  induction table as [|[k v] rest IH]; simpl; [apply lookup_empty|].
  rewrite lookup_insert. case_decide as Hk.
  - subst k. rewrite String.eqb_refl. reflexivity.
  - destruct (String.eqb_spec s k) as [->|_]; [congruence | exact IH].
Qed.

Lemma channel_code_documented (transaction_data : gmap string pyval) :
  hashable (dict_get transaction_data "channel" (VStr "pos")) = true ->
  str_table_get channel_map (dict_get transaction_data "channel" (VStr "pos")) 3
  = Ok (documented_channel (transaction_data !! "channel")).
Proof.
  unfold dict_get, documented_channel.
  destruct (transaction_data !! "channel") as [[| | | |s| |]|];
    try reflexivity; [|discriminate].
  intros _. unfold str_table_get. cbn [default from_option id].
  rewrite list_to_map_lookup_str. simpl.
  repeat (destruct (String.eqb s _); [reflexivity|]). reflexivity.
Qed.

Lemma kind_code_documented (transaction_data : gmap string pyval) :
  hashable (dict_get transaction_data "transaction_type" (VStr "debit")) = true ->
  str_table_get type_map
    (dict_get transaction_data "transaction_type" (VStr "debit")) 1
  = Ok (documented_kind (transaction_data !! "transaction_type")).
Proof.
  unfold dict_get, documented_kind.
  destruct (transaction_data !! "transaction_type") as [[| | | |s| |]|];
    try reflexivity; [|discriminate].
  intros _. unfold str_table_get. cbn [default from_option id].
  rewrite list_to_map_lookup_str. simpl.
  repeat (destruct (String.eqb s _); [reflexivity|]). reflexivity.
Qed.

Lemma country_risk_documented (transaction_data : gmap string pyval) :
  (let country := dict_get transaction_data "location_country" (VStr "IE") in
   if eq_str country "IE" then 0
   else if in_str_list country eu_countries then 1 else 2)
  = documented_country_risk (transaction_data !! "location_country").
Proof.
  unfold dict_get, documented_country_risk.
  destruct (transaction_data !! "location_country"); reflexivity.
Qed.

Lemma category_risk_documented (transaction_data : gmap string pyval) :
  (let category := dict_get transaction_data "merchant_category" (VStr "other") in
   if in_str_list category high_risk_categories then 2 else 1)
  = documented_category_risk (transaction_data !! "merchant_category").
Proof.
  unfold dict_get, documented_category_risk.
  destruct (transaction_data !! "merchant_category"); reflexivity.
Qed.

Lemma analyze_degraded (rt : Runtime) (settings : Settings)
    (self : FraudDetectionEngine) (transaction_data : gmap string pyval) (e : exn) :
  _extract_features rt transaction_data = Raise e ->
  analyze_transaction rt settings self transaction_data
  = Ok (degraded_result transaction_data e).
Proof.
  intros H. unfold analyze_transaction, analysis_body. rewrite H. reflexivity.
Qed.

Lemma channel_code_unhashable (transaction_data : gmap string pyval) :
  hashable (dict_get transaction_data "channel" (VStr "pos")) = false ->
  str_table_get channel_map (dict_get transaction_data "channel" (VStr "pos")) 3
  = Raise (TypeError "unhashable type: 'list'").
Proof.
  destruct (dict_get transaction_data "channel" (VStr "pos"));
    simpl; intros H; first [discriminate H | reflexivity].
Qed.

Lemma kind_code_unhashable (transaction_data : gmap string pyval) :
  hashable (dict_get transaction_data "transaction_type" (VStr "debit")) = false ->
  str_table_get type_map
    (dict_get transaction_data "transaction_type" (VStr "debit")) 1
  = Raise (TypeError "unhashable type: 'list'").
Proof.
  destruct (dict_get transaction_data "transaction_type" (VStr "debit"));
    simpl; intros H; first [discriminate H | reflexivity].
Qed.

Lemma py_hour_not_datetime (v : pyval) :
  (forall d, v <> VDatetime d) ->
  py_hour v = Raise (AttributeError "object has no attribute 'hour'").
Proof.
  destruct v as [| | | | |d|]; intros H; try reflexivity.
  exfalso. exact (H d eq_refl).
Qed.

(** C8, as the code has it: absent entries take the documented defaults,
    and an unrecognised country or merchant category, or an unrecognised
    hashable channel or transaction type, takes the documented default code;
    then extraction returns.  Nothing else is recovered: an amount or a
    balance that cannot be converted, a timestamp that is an unparseable
    string or is neither a string nor a datetime, and an unhashable channel
    or transaction type each make extraction raise, and
    [analyze_transaction] then returns the degraded result, whose tier is
    [unknown].  Extraction returns in no other case. *)
Theorem extract_features_defaults_and_failures (rt : Runtime)
    (settings : Settings) (self : FraudDetectionEngine)
    (transaction_data : gmap string pyval) :
  let amount_entry := dict_get transaction_data "amount" (VInt 0) in
  let balance_entry := dict_get transaction_data "account_balance" (VInt 10000) in
  let channel_entry := dict_get transaction_data "channel" (VStr "pos") in
  let kind_entry := dict_get transaction_data "transaction_type" (VStr "debit") in
  let degrades e :=
    _extract_features rt transaction_data = Raise e /\
    analyze_transaction rt settings self transaction_data
      = Ok (degraded_result transaction_data e) in
  (forall amount d balance,
     py_float rt amount_entry = Ok amount ->
     read_timestamp rt transaction_data = Ok (VDatetime d) ->
     hashable channel_entry = true ->
     hashable kind_entry = true ->
     py_float rt balance_entry = Ok balance ->
     _extract_features rt transaction_data =
       Ok [[ log1p rt amount;
             inject_Z (dt_hour d);
             inject_Z (weekday d);
             inject_Z (documented_channel (transaction_data !! "channel"));
             documented_country_risk (transaction_data !! "location_country");
             inject_Z (documented_kind (transaction_data !! "transaction_type"));
             documented_category_risk (transaction_data !! "merchant_category");
             py_min (amount / py_max balance 1) 2.0 ]]) /\
  (forall e,
     py_float rt amount_entry = Raise e ->
     degrades e) /\
  (forall amount e,
     py_float rt amount_entry = Ok amount ->
     read_timestamp rt transaction_data = Raise e ->
     degrades e) /\
  (forall amount v,
     py_float rt amount_entry = Ok amount ->
     read_timestamp rt transaction_data = Ok v ->
     (forall d, v <> VDatetime d) ->
     exists message, degrades (AttributeError message)) /\
  (forall amount d,
     py_float rt amount_entry = Ok amount ->
     read_timestamp rt transaction_data = Ok (VDatetime d) ->
     hashable channel_entry = false ->
     degrades (TypeError "unhashable type: 'list'")) /\
  (forall amount d,
     py_float rt amount_entry = Ok amount ->
     read_timestamp rt transaction_data = Ok (VDatetime d) ->
     hashable channel_entry = true ->
     hashable kind_entry = false ->
     degrades (TypeError "unhashable type: 'list'")) /\
  (forall amount d e,
     py_float rt amount_entry = Ok amount ->
     read_timestamp rt transaction_data = Ok (VDatetime d) ->
     hashable channel_entry = true ->
     hashable kind_entry = true ->
     py_float rt balance_entry = Raise e ->
     degrades e) /\
  ((exists rows, _extract_features rt transaction_data = Ok rows) <->
   (exists amount d balance,
      py_float rt amount_entry = Ok amount /\
      read_timestamp rt transaction_data = Ok (VDatetime d) /\
      hashable channel_entry = true /\
      hashable kind_entry = true /\
      py_float rt balance_entry = Ok balance)) /\
  (forall e, risk_level (degraded_result transaction_data e) = "unknown").
Proof.
  cbv zeta.
  assert (Hok : forall a d b,
             py_float rt (dict_get transaction_data "amount" (VInt 0)) = Ok a ->
             read_timestamp rt transaction_data = Ok (VDatetime d) ->
             hashable (dict_get transaction_data "channel" (VStr "pos")) = true ->
             hashable (dict_get transaction_data "transaction_type" (VStr "debit"))
               = true ->
             py_float rt (dict_get transaction_data "account_balance" (VInt 10000))
               = Ok b ->
             _extract_features rt transaction_data =
               Ok [[ log1p rt a;
                     inject_Z (dt_hour d);
                     inject_Z (weekday d);
                     inject_Z (documented_channel (transaction_data !! "channel"));
                     documented_country_risk (transaction_data !! "location_country");
                     inject_Z (documented_kind (transaction_data !! "transaction_type"));
                     documented_category_risk (transaction_data !! "merchant_category");
                     py_min (a / py_max b 1) 2.0 ]]).
  { intros a d b Ha Ht Hc Hk Hb. unfold _extract_features.
    rewrite Ha, bind_Ok, Ht, bind_Ok. simpl py_hour. simpl py_weekday.
    rewrite !bind_Ok, (channel_code_documented _ Hc), bind_Ok.
    rewrite (kind_code_documented _ Hk), bind_Ok, Hb, bind_Ok.
    cbv zeta.
    pose proof (country_risk_documented transaction_data) as Hcountry.
    pose proof (category_risk_documented transaction_data) as Hcat.
    cbv zeta in Hcountry, Hcat. rewrite Hcountry, Hcat. reflexivity. }
  assert (Hamount : forall e,
             py_float rt (dict_get transaction_data "amount" (VInt 0)) = Raise e ->
             _extract_features rt transaction_data = Raise e).
  { intros e Ha. unfold _extract_features. rewrite Ha. reflexivity. }
  assert (Hstamp : forall a e,
             py_float rt (dict_get transaction_data "amount" (VInt 0)) = Ok a ->
             read_timestamp rt transaction_data = Raise e ->
             _extract_features rt transaction_data = Raise e).
  { intros a e Ha Ht. unfold _extract_features.
    rewrite Ha, bind_Ok, Ht. reflexivity. }
  assert (Hhour : forall a v,
             py_float rt (dict_get transaction_data "amount" (VInt 0)) = Ok a ->
             read_timestamp rt transaction_data = Ok v ->
             (forall d, v <> VDatetime d) ->
             _extract_features rt transaction_data
             = Raise (AttributeError "object has no attribute 'hour'")).
  { intros a v Ha Ht Hv. unfold _extract_features.
    rewrite Ha, bind_Ok, Ht, bind_Ok, (py_hour_not_datetime _ Hv). reflexivity. }
  assert (Hchannel : forall a d,
             py_float rt (dict_get transaction_data "amount" (VInt 0)) = Ok a ->
             read_timestamp rt transaction_data = Ok (VDatetime d) ->
             hashable (dict_get transaction_data "channel" (VStr "pos")) = false ->
             _extract_features rt transaction_data
             = Raise (TypeError "unhashable type: 'list'")).
  { intros a d Ha Ht Hc. unfold _extract_features.
    rewrite Ha, bind_Ok, Ht, bind_Ok. simpl py_hour. simpl py_weekday.
    rewrite !bind_Ok, (channel_code_unhashable _ Hc). reflexivity. }
  assert (Hkind : forall a d,
             py_float rt (dict_get transaction_data "amount" (VInt 0)) = Ok a ->
             read_timestamp rt transaction_data = Ok (VDatetime d) ->
             hashable (dict_get transaction_data "channel" (VStr "pos")) = true ->
             hashable (dict_get transaction_data "transaction_type" (VStr "debit"))
               = false ->
             _extract_features rt transaction_data
             = Raise (TypeError "unhashable type: 'list'")).
  { intros a d Ha Ht Hc Hk. unfold _extract_features.
    rewrite Ha, bind_Ok, Ht, bind_Ok. simpl py_hour. simpl py_weekday.
    rewrite !bind_Ok, (channel_code_documented _ Hc), bind_Ok.
    rewrite (kind_code_unhashable _ Hk). reflexivity. }
  assert (Hbalance : forall a d e,
             py_float rt (dict_get transaction_data "amount" (VInt 0)) = Ok a ->
             read_timestamp rt transaction_data = Ok (VDatetime d) ->
             hashable (dict_get transaction_data "channel" (VStr "pos")) = true ->
             hashable (dict_get transaction_data "transaction_type" (VStr "debit"))
               = true ->
             py_float rt (dict_get transaction_data "account_balance" (VInt 10000))
               = Raise e ->
             _extract_features rt transaction_data = Raise e).
  { intros a d e Ha Ht Hc Hk Hb. unfold _extract_features.
    rewrite Ha, bind_Ok, Ht, bind_Ok. simpl py_hour. simpl py_weekday.
    rewrite !bind_Ok, (channel_code_documented _ Hc), bind_Ok.
    rewrite (kind_code_documented _ Hk), bind_Ok, Hb. reflexivity. }
  split; [exact Hok|].
  split; [intros e Ha; split; [|apply analyze_degraded]; eauto|].
  split; [intros a e Ha Ht; split; [|apply analyze_degraded]; eauto|].
  split; [intros a v Ha Ht Hv; eexists; split; [|apply analyze_degraded]; eauto|].
  split; [intros a d Ha Ht Hc; split; [|apply analyze_degraded]; eauto|].
  split; [intros a d Ha Ht Hc Hk; split; [|apply analyze_degraded]; eauto|].
  split; [intros a d e Ha Ht Hc Hk Hb; split; [|apply analyze_degraded]; eauto|].
  split; [|reflexivity].
  split.
  - intros [rows Hrows].
    destruct (py_float rt (dict_get transaction_data "amount" (VInt 0)))
      as [a|e] eqn:Ha; [|rewrite (Hamount e eq_refl) in Hrows; discriminate].
    destruct (read_timestamp rt transaction_data) as [v|e] eqn:Ht;
      [|rewrite (Hstamp a e eq_refl eq_refl) in Hrows; discriminate].
    assert (Hd : exists d, v = VDatetime d).
    { destruct v as [| | | | |d|]; try (exists d; reflexivity);
        rewrite (Hhour a _ eq_refl eq_refl) in Hrows by (intros d; discriminate);
        discriminate. }
    destruct Hd as [d ->].
    destruct (hashable (dict_get transaction_data "channel" (VStr "pos")))
      eqn:Hc; [|rewrite (Hchannel a d eq_refl eq_refl eq_refl) in Hrows; discriminate].
    destruct (hashable (dict_get transaction_data "transaction_type" (VStr "debit")))
      eqn:Hk; [|rewrite (Hkind a d eq_refl eq_refl eq_refl eq_refl) in Hrows; discriminate].
    destruct (py_float rt (dict_get transaction_data "account_balance" (VInt 10000)))
      as [b|e] eqn:Hb;
      [|rewrite (Hbalance a d e eq_refl eq_refl eq_refl eq_refl eq_refl) in Hrows;
        discriminate].
    exists a, d, b. repeat split; reflexivity || assumption.
  - intros (a & d & b & Ha & Ht & Hc & Hk & Hb).
    eexists. exact (Hok a d b Ha Ht Hc Hk Hb).
Qed.

Lemma extract_features_defaults_and_failures_witness :
  (exists row,
     _extract_features reference_runtime (payload [("channel", VStr "kiosk")])
     = Ok [row] /\
     row !! 3%nat = Some 3 /\ row !! 5%nat = Some 1 /\ row !! 6%nat = Some 1) /\
  (exists e,
     _extract_features reference_runtime malformed_amount_payload = Raise e /\
     analyze_transaction reference_runtime default_settings
       (init_engine (constant_models 0.1 0.2)) malformed_amount_payload
     = Ok (degraded_result malformed_amount_payload e)) /\
  (exists e,
     _extract_features reference_runtime (payload [("timestamp", VInt 1705360500)])
     = Raise e /\
     analyze_transaction reference_runtime default_settings
       (init_engine (constant_models 0.1 0.2))
       (payload [("timestamp", VInt 1705360500)])
     = Ok (degraded_result (payload [("timestamp", VInt 1705360500)]) e)) /\
  (exists e,
     _extract_features reference_runtime
       (payload [("channel", VList [VStr "online"])]) = Raise e /\
     analyze_transaction reference_runtime default_settings
       (init_engine (constant_models 0.1 0.2))
       (payload [("channel", VList [VStr "online"])])
     = Ok (degraded_result (payload [("channel", VList [VStr "online"])]) e)).
Proof.
  split; [|split; [|split]].
  - destruct (extract_features_defaults_and_failures reference_runtime
                default_settings (init_engine (constant_models 0.1 0.2))
                (payload [("channel", VStr "kiosk")])) as [Hok _].
    eexists. split.
    + apply (Hok 0 (now reference_runtime) (inject_Z 10000)); reflexivity.
    + repeat split.
  - destruct (extract_features_defaults_and_failures reference_runtime
                default_settings (init_engine (constant_models 0.1 0.2))
                malformed_amount_payload) as (_ & Hraise & _).
    eexists. apply Hraise. reflexivity.
  - destruct (extract_features_defaults_and_failures reference_runtime
                default_settings (init_engine (constant_models 0.1 0.2))
                (payload [("timestamp", VInt 1705360500)]))
      as (_ & _ & _ & Hraise & _).
    destruct (Hraise 0 (VInt 1705360500) eq_refl eq_refl
                ltac:(intros d; discriminate)) as [message Hdegraded].
    exists (AttributeError message). exact Hdegraded.
  - destruct (extract_features_defaults_and_failures reference_runtime
                default_settings (init_engine (constant_models 0.1 0.2))
                (payload [("channel", VList [VStr "online"])]))
      as (_ & _ & _ & _ & Hraise & _).
    eexists. apply (Hraise 0 (now reference_runtime)); reflexivity.
Defined.

(** C8, as stated, fails: a payload whose amount is the string [abc], or
    whose timestamp is the string [yesterday], makes extraction raise, and
    the analysis returns the degraded result with tier unknown. *)
Lemma malformed_field_counterexample :
  (exists e r,
     _extract_features reference_runtime malformed_amount_payload = Raise e /\
     analyze_transaction reference_runtime default_settings
       (init_engine (constant_models 0.1 0.2)) malformed_amount_payload = Ok r /\
     risk_level r = "unknown" /\ error r = Some (str_of_exn e)) /\
  (exists e r,
     _extract_features reference_runtime malformed_timestamp_payload = Raise e /\
     analyze_transaction reference_runtime default_settings
       (init_engine (constant_models 0.1 0.2)) malformed_timestamp_payload = Ok r /\
     risk_level r = "unknown" /\ error r = Some (str_of_exn e)).
Proof.
  split; do 2 eexists; (split; [vm_compute; reflexivity|]);
    (split; [vm_compute; reflexivity|]); split; reflexivity.
Qed.

(** ** Rounding of the reported score against the flag *)

Lemma Qfloor_between (k : Z) (y : Q) :
  inject_Z k - 1 <= y -> y < inject_Z k -> Qfloor y = (k - 1)%Z.
Proof.
  intros Hlo Hhi.
  pose proof (Qfloor_le y) as Hf. pose proof (Qlt_floor y) as Hc.
  rewrite inject_Z_plus in Hc.
  assert (Qfloor y < k)%Z as H1.
  { rewrite Zlt_Qlt. lra. }
  assert (k < Qfloor y + 1 + 1)%Z as H2.
  { rewrite Zlt_Qlt, !inject_Z_plus. change (inject_Z 1) with 1 in *. lra. }
  lia.
Qed.

(** Strictly less than half below an integer rounds up to it. *)
Lemma round_half_even_above (k : Z) (y : Q) :
  inject_Z k - (1 # 2) < y -> y < inject_Z k -> round_half_even y = k.
Proof.
  intros Hlo Hhi. unfold round_half_even.
  rewrite (Qfloor_between k y) by lra.
  assert (Hg : Qcompare (y - inject_Z (k - 1)) (1 # 2) = Gt).
  { apply Qgt_alt. unfold Z.sub. rewrite inject_Z_plus, inject_Z_opp.
    change (inject_Z 1) with 1. lra. }
  rewrite Hg. lia.
Qed.

(** Exactly half below an even integer rounds up to it as well. *)
Lemma round_half_even_tie (k : Z) (y : Q) :
  Z.even k = true -> y == inject_Z k - (1 # 2) -> round_half_even y = k.
Proof.
  intros Hk Hy. unfold round_half_even.
  rewrite (Qfloor_between k y) by lra.
  assert (He : Qcompare (y - inject_Z (k - 1)) (1 # 2) = Eq).
  { apply Qeq_alt. unfold Z.sub. rewrite inject_Z_plus, inject_Z_opp.
    change (inject_Z 1) with 1. lra. }
  rewrite He.
  replace (Z.even (k - 1)) with false; [lia|].
  rewrite Z.even_sub, Hk. reflexivity.
Qed.

(** Two-decimal rounding just below a whole number of hundredths. *)
Lemma py_round_2_below (k : Z) (x : Q) :
  inject_Z k / 100 - 0.005 < x ->
  x < inject_Z k / 100 ->
  py_round x 2 == inject_Z k / 100.
Proof.
  intros Hlo Hhi. unfold py_round.
  change (inject_Z (10 ^ Z.of_nat 2)) with (100 # 1).
  assert (E : inject_Z k == inject_Z k / 100 * 100) by field.
  rewrite (round_half_even_above k); [reflexivity | lra | lra].
Qed.

Lemma final_score_analysis (rt : Runtime) (settings : Settings)
    (self : FraudDetectionEngine) (transaction_data : gmap string pyval)
    (final : Q) :
  final_score rt self transaction_data = Ok final ->
  exists r,
    analyze_transaction rt settings self transaction_data = Ok r /\
    risk_score r = py_round final 2 /\
    is_flagged r = Qle_bool (FRAUD_THRESHOLD settings) final /\
    risk_level r = _determine_risk_level final.
Proof.
  unfold final_score. intros H.
  bind_inv H. bind_inv H. destruct x0 as [rs triggered]. bind_inv H.
  inversion H; subst final. clear H.
  destruct (analysis_body_Ok rt settings self transaction_data x rs triggered
              E E0) as (ml & inds & Hml & _ & Hbody).
  rewrite E1 in Hml. inversion Hml; subst ml.
  eexists. split.
  { unfold analyze_transaction. rewrite Hbody. reflexivity. }
  repeat split.
Qed.

(** C10, as the code has it: the flag compares the unrounded final score
    with the threshold while the report carries the score rounded to two
    decimals.  When the threshold is a whole number [k] of hundredths, as
    the default 0.7 is, a final score below it by less than 0.005 is
    reported as a score equal to the threshold and is not flagged. *)
Theorem rounded_score_meets_threshold_unflagged (rt : Runtime)
    (settings : Settings) (self : FraudDetectionEngine)
    (transaction_data : gmap string pyval) (final : Q) (k : Z) :
  final_score rt self transaction_data = Ok final ->
  FRAUD_THRESHOLD settings == inject_Z k / 100 ->
  FRAUD_THRESHOLD settings - 0.005 < final ->
  final < FRAUD_THRESHOLD settings ->
  exists r,
    analyze_transaction rt settings self transaction_data = Ok r /\
    risk_score r = py_round final 2 /\
    is_flagged r = Qle_bool (FRAUD_THRESHOLD settings) final /\
    risk_score r == FRAUD_THRESHOLD settings /\
    FRAUD_THRESHOLD settings <= risk_score r /\
    is_flagged r = false.
Proof.
  intros Hfinal Hthr Hlo Hhi.
  destruct (final_score_analysis rt settings self transaction_data final Hfinal)
    as (r & Hr & Hscore & Hflag & _).
  exists r. split; [exact Hr|]. split; [exact Hscore|]. split; [exact Hflag|].
  assert (Hround : risk_score r == FRAUD_THRESHOLD settings).
  { rewrite Hscore, Hthr. apply py_round_2_below; lra. }
  split; [exact Hround|]. split; [lra|].
  rewrite Hflag. apply Qle_bool_false. exact Hhi.
Qed.

Lemma rounded_score_meets_threshold_unflagged_witness :
  exists r,
    analyze_transaction reference_runtime default_settings
      (init_engine (constant_models 0.5 0.348)) domestic_payload = Ok r /\
    risk_score r == 0.7 /\
    is_flagged r = false.
Proof.
  destruct (rounded_score_meets_threshold_unflagged reference_runtime
              default_settings (init_engine (constant_models 0.5 0.348))
              domestic_payload (1392000 # 2000000) 70)
    as (r & Hr & _ & _ & Hscore & _ & Hflag).
  - vm_compute. reflexivity.
  - vm_compute. reflexivity.
  - vm_compute. reflexivity.
  - vm_compute. reflexivity.
  - exists r. split; [exact Hr|]. split; [|exact Hflag].
    rewrite Hscore. vm_compute. reflexivity.
Defined.

(** C10, as stated, fails for a threshold that is not a whole number of
    hundredths: with the threshold set to 0.705 a final score of 0.702 lies
    within 0.005 below it, is not flagged, and is reported as 0.7, which is
    below the threshold. *)
Lemma rounded_score_below_threshold_counterexample :
  let settings := {| FRAUD_THRESHOLD := 0.705 |} in
  let self := init_engine (constant_models 0.5 0.351) in
  exists final r,
    final_score reference_runtime self domestic_payload = Ok final /\
    FRAUD_THRESHOLD settings - 0.005 <= final /\
    final < FRAUD_THRESHOLD settings /\
    analyze_transaction reference_runtime settings self domestic_payload = Ok r /\
    is_flagged r = false /\
    risk_score r == 0.7 /\
    ~ FRAUD_THRESHOLD settings <= risk_score r.
Proof.
  cbv zeta. do 2 eexists.
  split; [vm_compute; reflexivity|].
  split; [vm_compute; discriminate|].
  split; [vm_compute; reflexivity|].
  split; [vm_compute; reflexivity|].
  split; [vm_compute; reflexivity|].
  split; [vm_compute; reflexivity|].
  vm_compute. intros H. apply H. reflexivity.
Qed.

(** * Further properties of the engine *)

(** ** The feature vector *)

Lemma str_table_get_channel (v : pyval) (c : Z) :
  str_table_get channel_map v 3 = Ok c -> c ∈ [1; 2; 3; 4]%Z.
Proof.
  intros H. destruct v as [| | | |s| |];
    try (simpl in H; first [discriminate | inversion H; subst c; set_solver]).
  unfold str_table_get in H. rewrite list_to_map_lookup_str in H. simpl in H.
  repeat (destruct (String.eqb s _);
          [simpl in H; inversion H; subst c; set_solver|]).
  simpl in H. inversion H. set_solver.
Qed.

Lemma str_table_get_kind (v : pyval) (k : Z) :
  str_table_get type_map v 1 = Ok k -> k ∈ [1; 2; 3]%Z.
Proof.
  intros H. destruct v as [| | | |s| |];
    try (simpl in H; first [discriminate | inversion H; subst k; set_solver]).
  unfold str_table_get in H. rewrite list_to_map_lookup_str in H. simpl in H.
  repeat (destruct (String.eqb s _);
          [simpl in H; inversion H; subst k; set_solver|]).
  simpl in H. inversion H. set_solver.
Qed.

Lemma py_hour_inv (v : pyval) (h : Z) :
  py_hour v = Ok h -> exists d, v = VDatetime d /\ h = dt_hour d.
Proof. destruct v; simpl; intros H; try discriminate. inversion H. eauto. Qed.

(** What a successful extraction has read. *)
Lemma extract_features_inv (rt : Runtime) (transaction_data : gmap string pyval)
    (features : list (list Q)) :
  _extract_features rt transaction_data = Ok features ->
  exists amount d channel kind balance,
    py_float rt (dict_get transaction_data "amount" (VInt 0)) = Ok amount /\
    read_timestamp rt transaction_data = Ok (VDatetime d) /\
    str_table_get channel_map
      (dict_get transaction_data "channel" (VStr "pos")) 3 = Ok channel /\
    str_table_get type_map
      (dict_get transaction_data "transaction_type" (VStr "debit")) 1 = Ok kind /\
    py_float rt (dict_get transaction_data "account_balance" (VInt 10000))
      = Ok balance /\
    features =
      [[ log1p rt amount; inject_Z (dt_hour d); inject_Z (weekday d);
         inject_Z channel;
         documented_country_risk (transaction_data !! "location_country");
         inject_Z kind;
         documented_category_risk (transaction_data !! "merchant_category");
         py_min (amount / py_max balance 1) 2.0 ]].
Proof.
  unfold _extract_features. intros H. do 7 bind_inv H.
  destruct (py_hour_inv _ _ E1) as (d & -> & ->).
  simpl in E2. inversion E2; subst x2.
  exists x, d, x3, x4, x5. repeat (split; [assumption|]).
  injection H as <-.
  pose proof (country_risk_documented transaction_data) as Hc.
  pose proof (category_risk_documented transaction_data) as Hk.
  cbv zeta in Hc, Hk. rewrite <- Hc, <- Hk. reflexivity.
Qed.

(** X1: a returned feature matrix is one row of eight entries whose coded
    positions stay in their ranges: day of week in 0..6, channel in 1..4,
    country risk in 0..2, transaction kind in 1..3 and category risk in
    1..2. *)
Theorem extract_features_ranges (rt : Runtime)
    (transaction_data : gmap string pyval) (features : list (list Q)) :
  _extract_features rt transaction_data = Ok features ->
  exists log_amount hour day channel country kind category ratio,
    features = [[ log_amount; inject_Z hour; inject_Z day; inject_Z channel;
                  country; inject_Z kind; category; ratio ]] /\
    (0 <= day <= 6)%Z /\
    channel ∈ [1; 2; 3; 4]%Z /\
    country ∈ [0; 1; 2] /\
    kind ∈ [1; 2; 3]%Z /\
    category ∈ [1; 2].
Proof.
  intros H.
  destruct (extract_features_inv _ _ _ H)
    as (amount & d & channel & kind & balance & _ & _ & Hc & Hk & _ & ->).
  do 8 eexists. split; [reflexivity|].
  split.
  { unfold weekday. pose proof (Z.mod_pos_bound (toordinal d + 6) 7). lia. }
  split; [exact (str_table_get_channel _ _ Hc)|].
  split.
  { unfold documented_country_risk.
    destruct (transaction_data !! "location_country") as [v|]; [|set_solver].
    destruct (eq_str v "IE"); [set_solver|].
    destruct (in_str_list v eu_countries); set_solver. }
  split; [exact (str_table_get_kind _ _ Hk)|].
  unfold documented_category_risk.
  destruct (transaction_data !! "merchant_category") as [v|]; [|set_solver].
  destruct (in_str_list v high_risk_categories); set_solver.
Qed.

Lemma extract_features_ranges_witness :
  exists features,
    _extract_features reference_runtime domestic_payload = Ok features /\
    feature features 3 = Some 3 /\ feature features 4 = Some 0.
Proof.
  destruct (extract_features_ranges reference_runtime domestic_payload
              [[ log1p_approx 125.50; 14; 0; 3; 0; 1; 1;
                 py_min (125.50 / py_max (inject_Z 10000) 1) 2.0 ]])
    as (f0 & h & dy & c & co & k & ca & ra & Hf & _).
  - reflexivity.
  - eexists. split; [reflexivity|]. split; reflexivity.
Defined.

(** The predicate of each rule category. *)
Lemma rule_triggered_amount (transaction_data : gmap string pyval) (amount : Q)
    (timestamp : pyval) (rule : RiskRule) :
  rule_type rule = "amount" ->
  rule_triggered transaction_data amount timestamp rule
  = Ok (Qle_bool (rule_threshold rule) amount).
Proof. intros Ht. unfold rule_triggered. rewrite Ht. reflexivity. Qed.

Lemma rule_triggered_location (transaction_data : gmap string pyval) (amount : Q)
    (timestamp : pyval) (rule : RiskRule) :
  rule_type rule = "location" ->
  rule_triggered transaction_data amount timestamp rule
  = Ok (negb (eq_str (dict_get transaction_data "location_country" (VStr "IE")) "IE")).
Proof. intros Ht. unfold rule_triggered. rewrite Ht. reflexivity. Qed.

Lemma rule_triggered_velocity (transaction_data : gmap string pyval) (amount : Q)
    (timestamp : pyval) (rule : RiskRule) :
  rule_type rule = "velocity" ->
  rule_triggered transaction_data amount timestamp rule
  = str_in "rapid" (dict_get transaction_data "fraud_indicators" (VStr "")).
Proof. intros Ht. unfold rule_triggered. rewrite Ht. reflexivity. Qed.

Lemma rule_triggered_pattern (transaction_data : gmap string pyval) (amount : Q)
    (timestamp : pyval) (rule : RiskRule) :
  rule_type rule = "pattern" ->
  rule_triggered transaction_data amount timestamp rule
  = Ok (truthy (dict_get transaction_data "is_new_merchant" (VBool false))).
Proof. intros Ht. unfold rule_triggered. rewrite Ht. reflexivity. Qed.

Lemma rule_triggered_unknown (transaction_data : gmap string pyval) (amount : Q)
    (timestamp : pyval) (rule : RiskRule) :
  known_type rule = false ->
  rule_triggered transaction_data amount timestamp rule = Ok false.
Proof.
  unfold known_type. intros Hk. apply bool_decide_eq_false in Hk.
  unfold rule_triggered.
  assert (Hne : forall s,
             s ∈ ["amount"; "location"; "time"; "velocity"; "pattern"] ->
             String.eqb (rule_type rule) s = false).
  { intros s Hs. apply String.eqb_neq. intros E. apply Hk. rewrite E. exact Hs. }
  rewrite !Hne by set_solver. reflexivity.
Qed.

(** X3: the location rule and the country-risk feature read the same
    entry: a rule of category [location] triggers exactly when the
    country-risk feature is not 0. *)
Theorem location_rule_matches_country_feature (rt : Runtime)
    (transaction_data : gmap string pyval) (features : list (list Q))
    (amount : Q) (timestamp : pyval) (rule : RiskRule) :
  _extract_features rt transaction_data = Ok features ->
  rule_type rule = "location" ->
  exists country,
    feature features 4 = Some country /\
    (rule_triggered transaction_data amount timestamp rule = Ok true
       <-> ~ country == 0) /\
    (rule_triggered transaction_data amount timestamp rule = Ok false
       <-> country == 0).
Proof.
  intros H Ht.
  destruct (extract_features_inv _ _ _ H)
    as (a & d & channel & kind & b & _ & _ & _ & _ & _ & ->).
  eexists. split; [reflexivity|].
  rewrite (rule_triggered_location _ _ _ _ Ht).
  unfold dict_get, documented_country_risk.
  assert (Hzero : forall t : bool,
             t = false ->
             (Ok t = Ok true <-> ~ 0 == 0) /\ (Ok t = Ok false <-> 0 == 0)).
  { intros t ->. split; split; intros Hx; try discriminate; try reflexivity.
    exfalso. apply Hx. reflexivity. }
  assert (Hpos : forall (t : bool) (c : Q),
             t = true -> ~ c == 0 ->
             (Ok t = Ok true <-> ~ c == 0) /\ (Ok t = Ok false <-> c == 0)).
  { intros t c -> Hc. split; split; intros Hx; try discriminate;
      try reflexivity; try assumption. contradiction. }
  destruct (transaction_data !! "location_country") as [v|];
    cbn [default from_option id].
  - destruct (eq_str v "IE"); [apply Hzero; reflexivity|].
    destruct (in_str_list v eu_countries);
      (apply Hpos; [reflexivity | intros Hq; vm_compute in Hq; discriminate Hq]).
  - apply Hzero. reflexivity.
Qed.

Lemma location_rule_matches_country_feature_witness :
  rule_triggered (payload [("location_country", VStr "GB")]) 0 VNone
    (mk_rule "foreign_transaction" "location" 1.0 2.0 "") = Ok true /\
  exists features,
    _extract_features reference_runtime (payload [("location_country", VStr "GB")])
      = Ok features /\
    feature features 4 = Some 1.
Proof.
  destruct (location_rule_matches_country_feature reference_runtime
              (payload [("location_country", VStr "GB")]) _ 0 VNone
              (mk_rule "foreign_transaction" "location" 1.0 2.0 "")
              eq_refl eq_refl) as (country & Hc & Htrue & _).
  split.
  - apply Htrue. vm_compute in Hc. injection Hc as <-. vm_compute. discriminate.
  - eexists. split; reflexivity.
Defined.

(** ** The rule set as data *)

Lemma rule_triggered_same_predicate (transaction_data : gmap string pyval)
    (amount : Q) (timestamp : pyval) (rule rule' : RiskRule) :
  same_predicate rule rule' ->
  rule_triggered transaction_data amount timestamp rule
  = rule_triggered transaction_data amount timestamp rule'.
Proof.
  intros (_ & Ht & Hth). unfold rule_triggered. rewrite Ht, Hth. reflexivity.
Qed.

Lemma rules_loop_monotone (transaction_data : gmap string pyval) (amount : Q)
    (timestamp : pyval) (rules rules' : list RiskRule) :
  Forall2 (fun rule rule' =>
             same_predicate rule rule' /\ rule_weight rule <= rule_weight rule')
          rules rules' ->
  forall (t t' : Q) (names out : list string) (s : Q),
    t <= t' ->
    rules_loop transaction_data amount timestamp rules t names = Ok (s, out) ->
    exists s',
      rules_loop transaction_data amount timestamp rules' t' names = Ok (s', out) /\
      s <= s'.
Proof.
  induction 1 as [|rule rule' rest rest' [Hsame Hw] _ IH];
    intros t t' names out s Ht Hloop; simpl in *.
  - injection Hloop as <- <-. eauto.
  - rewrite <- (rule_triggered_same_predicate _ _ _ _ _ Hsame).
    bind_inv Hloop. rewrite E, bind_Ok.
    destruct Hsame as (Hname & _). rewrite <- Hname.
    destruct x; eapply IH; try exact Hloop; lra.
Qed.

Lemma apply_risk_rules_inv (rt : Runtime) (self : FraudDetectionEngine)
    (transaction_data : gmap string pyval) (rs : Q) (names : list string) :
  _apply_risk_rules rt self transaction_data = Ok (rs, names) ->
  exists amount timestamp total,
    py_float rt (dict_get transaction_data "amount" (VInt 0)) = Ok amount /\
    read_timestamp rt transaction_data = Ok timestamp /\
    rules_loop transaction_data amount timestamp (risk_rules self) 0.0 []
      = Ok (total, names) /\
    rs = py_min total 10.0.
Proof.
  unfold _apply_risk_rules. intros H. do 3 bind_inv H.
  destruct x1 as [total out]. injection H as <- <-.
  exists x, x0, total. auto.
Qed.

(** X4: raising the weight of rules, all else fixed, never lowers the rule
    score and leaves the list of triggered names as it is. *)
Theorem rule_score_monotone_in_weights (rt : Runtime)
    (self : FraudDetectionEngine) (rules rules' : list RiskRule)
    (transaction_data : gmap string pyval) (rs : Q) (names : list string) :
  Forall2 (fun rule rule' =>
             same_predicate rule rule' /\ rule_weight rule <= rule_weight rule')
          rules rules' ->
  _apply_risk_rules rt (update_risk_rules self rules) transaction_data
    = Ok (rs, names) ->
  exists rs',
    _apply_risk_rules rt (update_risk_rules self rules') transaction_data
      = Ok (rs', names) /\
    rs <= rs'.
Proof.
  intros Hrules H.
  destruct (apply_risk_rules_inv _ _ _ _ _ H)
    as (amount & ts & total & Ha & Ht & Hloop & ->).
  simpl in Hloop.
  destruct (rules_loop_monotone _ _ _ _ _ Hrules 0.0 0.0 [] names total
              ltac:(lra) Hloop) as (total' & Hloop' & Hle).
  exists (py_min total' 10.0). split.
  - unfold _apply_risk_rules. rewrite Ha, bind_Ok, Ht, bind_Ok. simpl.
    rewrite Hloop'. reflexivity.
  - apply py_min_glb; [|apply py_min_le_r].
    apply Qle_trans with total; [apply py_min_le_l | exact Hle].
Qed.

Lemma rule_score_monotone_in_weights_witness :
  let heavier :=
    [ mk_rule "foreign_transaction" "location" 1.0 4.0 "";
      mk_rule "new_merchant" "pattern" 1.0 1.0 "" ] in
  exists rs',
    _apply_risk_rules reference_runtime
      (update_risk_rules (init_engine (constant_models 0.1 0.2)) heavier)
      foreign_new_merchant_payload
    = Ok (rs', ["foreign_transaction"; "new_merchant"]) /\
    3 <= rs'.
Proof.
  cbv zeta.
  destruct (rule_score_monotone_in_weights reference_runtime
              (init_engine (constant_models 0.1 0.2))
              [ mk_rule "foreign_transaction" "location" 1.0 2.0 "";
                mk_rule "new_merchant" "pattern" 1.0 1.0 "" ]
              [ mk_rule "foreign_transaction" "location" 1.0 4.0 "";
                mk_rule "new_merchant" "pattern" 1.0 1.0 "" ]
              foreign_new_merchant_payload (3000 # 1000)
              ["foreign_transaction"; "new_merchant"])
    as (rs' & Hres & Hle).
  - repeat constructor; simpl; lra.
  - vm_compute. reflexivity.
  - exists rs'. split; [exact Hres | lra].
Defined.

Lemma rules_loop_Ok_inv (transaction_data : gmap string pyval) (amount : Q)
    (timestamp : pyval) (rules : list RiskRule) :
  forall (t : Q) (names : list string) (s : Q) (out : list string),
    rules_loop transaction_data amount timestamp rules t names = Ok (s, out) ->
    Forall (fun rule => exists b,
              rule_triggered transaction_data amount timestamp rule = Ok b) rules.
Proof.
  induction rules as [|rule rest IH]; intros t names s out H; [constructor|].
  simpl in H. bind_inv H. constructor; [eauto|].
  destruct x; eapply IH; exact H.
Qed.

Lemma filter_Permutation_names (f : RiskRule -> bool)
    (rules rules' : list RiskRule) :
  rules ≡ₚ rules' ->
  rule_name <$> List.filter f rules ≡ₚ rule_name <$> List.filter f rules'.
Proof.
  induction 1 as [|x l l' _ IH|x y l|l l' l'' _ IH _ IH']; simpl.
  - reflexivity.
  - destruct (f x); simpl; [constructor|]; exact IH.
  - destruct (f x), (f y); simpl; try reflexivity. apply perm_swap.
  - rewrite IH. exact IH'.
Qed.

(** X5: the order of the rule set decides neither whether the evaluator
    returns nor which rules trigger: when it returns for one order it
    returns for every other, and the triggered names are the same up to
    their order. *)
Theorem triggered_names_order_independent (rt : Runtime)
    (self : FraudDetectionEngine) (rules rules' : list RiskRule)
    (transaction_data : gmap string pyval) (rs : Q) (names : list string) :
  rules ≡ₚ rules' ->
  _apply_risk_rules rt (update_risk_rules self rules) transaction_data
    = Ok (rs, names) ->
  exists rs' names',
    _apply_risk_rules rt (update_risk_rules self rules') transaction_data
      = Ok (rs', names') /\
    names' ≡ₚ names.
Proof.
  intros Hperm H.
  destruct (apply_risk_rules_inv _ _ _ _ _ H)
    as (amount & ts & total & Ha & Ht & Hloop & ->).
  simpl in Hloop.
  pose proof (rules_loop_Ok_inv _ _ _ _ _ _ _ _ Hloop) as Hall.
  assert (Hall' : Forall (fun rule => exists b,
                    rule_triggered transaction_data amount ts rule = Ok b) rules').
  { rewrite <- Hperm. exact Hall. }
  destruct (rules_loop_spec _ _ _ _ Hall 0.0 []) as (s1 & H1 & _).
  destruct (rules_loop_spec _ _ _ _ Hall' 0.0 []) as (s2 & H2 & _).
  rewrite Hloop in H1. injection H1 as <- ->.
  exists (py_min s2 10.0). eexists. split.
  - unfold _apply_risk_rules. rewrite Ha, bind_Ok, Ht, bind_Ok. simpl.
    rewrite H2. reflexivity.
  - simpl. symmetry.
    exact (filter_Permutation_names (triggers transaction_data amount ts)
             _ _ Hperm).
Qed.

Lemma triggered_names_order_independent_witness :
  exists rs' names',
    _apply_risk_rules reference_runtime
      (update_risk_rules (init_engine (constant_models 0.1 0.2))
         (reverse load_risk_rules))
      foreign_new_merchant_payload = Ok (rs', names') /\
    names' ≡ₚ ["foreign_transaction"; "new_merchant"].
Proof.
  destruct (triggered_names_order_independent reference_runtime
              (init_engine (constant_models 0.1 0.2))
              load_risk_rules (reverse load_risk_rules)
              foreign_new_merchant_payload (3000 # 1000)
              ["foreign_transaction"; "new_merchant"])
    as (rs' & names' & Hres & Hnames).
  - symmetry. apply reverse_Permutation.
  - vm_compute. reflexivity.
  - exists rs', names'. split; [exact Hres | exact Hnames].
Defined.

Lemma rules_loop_filter_known (transaction_data : gmap string pyval)
    (amount : Q) (timestamp : pyval) (rules : list RiskRule) :
  forall (t : Q) (names : list string),
    rules_loop transaction_data amount timestamp rules t names
    = rules_loop transaction_data amount timestamp
        (List.filter known_type rules) t names.
Proof.
  induction rules as [|rule rest IH]; intros t names; [reflexivity|].
  simpl. destruct (known_type rule) eqn:Hk; simpl.
  - destruct (rule_triggered transaction_data amount timestamp rule) as [[]|];
      simpl; [apply IH | apply IH | reflexivity].
  - rewrite (rule_triggered_unknown _ _ _ _ Hk). simpl. apply IH.
Qed.

(** X6: a rule whose category is none of amount, location, time, velocity
    and pattern never triggers and never raises: the evaluator behaves as
    if such rules were not in the set, and a set holding only such rules
    scores 0.0 with no triggered name. *)
Theorem unknown_rule_types_are_inert (rt : Runtime)
    (self : FraudDetectionEngine) (rules : list RiskRule)
    (transaction_data : gmap string pyval) :
  _apply_risk_rules rt (update_risk_rules self rules) transaction_data
  = _apply_risk_rules rt
      (update_risk_rules self (List.filter known_type rules)) transaction_data /\
  (forall amount timestamp,
     List.filter known_type rules = [] ->
     py_float rt (dict_get transaction_data "amount" (VInt 0)) = Ok amount ->
     read_timestamp rt transaction_data = Ok timestamp ->
     _apply_risk_rules rt (update_risk_rules self rules) transaction_data
     = Ok (0.0, [])).
Proof.
  assert (Heq : _apply_risk_rules rt (update_risk_rules self rules) transaction_data
                = _apply_risk_rules rt
                    (update_risk_rules self (List.filter known_type rules))
                    transaction_data).
  { unfold _apply_risk_rules. simpl.
    destruct (py_float rt (dict_get transaction_data "amount" (VInt 0)));
      [|reflexivity].
    rewrite !bind_Ok.
    destruct (read_timestamp rt transaction_data); [|reflexivity].
    rewrite !bind_Ok, rules_loop_filter_known. reflexivity. }
  split; [exact Heq|].
  intros amount ts Hnone Ha Ht. rewrite Heq, Hnone.
  unfold _apply_risk_rules. rewrite Ha, bind_Ok, Ht. reflexivity.
Qed.

Lemma str_in_not_searchable (needle : string) (v : pyval) :
  not_searchable v = true ->
  str_in needle v = Raise (TypeError "argument is not iterable").
Proof. destruct v; simpl; intros H; first [discriminate H | reflexivity]. Qed.

(** X7: the velocity predicate searches the entry [fraud_indicators]; when
    that entry is [None], a boolean, an integer, a float or a datetime and
    the rule set holds a velocity rule, the analysis ends in the degraded
    result. *)
Theorem unsearchable_history_hint_degrades (rt : Runtime) (settings : Settings)
    (self : FraudDetectionEngine) (transaction_data : gmap string pyval)
    (rule : RiskRule) (entry : pyval) :
  rule ∈ risk_rules self ->
  rule_type rule = "velocity" ->
  transaction_data !! "fraud_indicators" = Some entry ->
  not_searchable entry = true ->
  exists e,
    analyze_transaction rt settings self transaction_data
    = Ok (degraded_result transaction_data e).
Proof.
  intros Hin Ht Hentry Hscalar.
  assert (He : str_in "rapid"
                 (dict_get transaction_data "fraud_indicators" (VStr ""))
               = Raise (TypeError "argument is not iterable")).
  { unfold dict_get. rewrite Hentry. apply str_in_not_searchable, Hscalar. }
  destruct (_extract_features rt transaction_data) as [features|e0] eqn:Hf.
  - destruct (extract_features_inv _ _ _ Hf)
      as (amount & d & _ & _ & _ & Ha & Hts & _).
    assert (Hr : rule_triggered transaction_data amount (VDatetime d) rule
                 = Raise (TypeError "argument is not iterable")).
    { rewrite (rule_triggered_velocity _ _ _ _ Ht). exact He. }
    destruct (rules_loop_Raise _ _ _ _ _ _ Hin Hr 0.0 []) as [e' Hloop].
    exists e'. unfold analyze_transaction, analysis_body.
    rewrite Hf, bind_Ok. unfold _apply_risk_rules.
    rewrite Ha, bind_Ok, Hts, bind_Ok, Hloop. reflexivity.
  - exists e0. apply analyze_degraded, Hf.
Qed.

Lemma unsearchable_history_hint_degrades_witness :
  (exists r,
     analyze_transaction reference_runtime default_settings
       (init_engine (constant_models 0.1 0.2))
       (payload [("amount", VFloat 20.0); ("fraud_indicators", VNone)]) = Ok r /\
     risk_level r = "unknown") /\
  (exists r,
     analyze_transaction reference_runtime default_settings
       (init_engine (constant_models 0.1 0.2))
       (payload [("amount", VFloat 20.0); ("fraud_indicators", VInt 4)]) = Ok r /\
     risk_level r = "unknown").
Proof.
  pose proof (fun entry =>
                unsearchable_history_hint_degrades reference_runtime
                  default_settings (init_engine (constant_models 0.1 0.2))
                  (payload [("amount", VFloat 20.0); ("fraud_indicators", entry)])
                  (mk_rule "velocity_check" "velocity" 3.0 2.5
                     "More than 3 transactions in 10 minutes")
                  entry) as Hdeg.
  assert (Hin : mk_rule "velocity_check" "velocity" 3.0 2.5
                  "More than 3 transactions in 10 minutes"
                ∈ risk_rules (init_engine (constant_models 0.1 0.2))).
  { apply list_elem_of_In. simpl. tauto. }
  split.
  - destruct (Hdeg VNone Hin eq_refl eq_refl eq_refl) as [e He].
    eexists. split; [exact He | reflexivity].
  - destruct (Hdeg (VInt 4) Hin eq_refl eq_refl eq_refl) as [e He].
    eexists. split; [exact He | reflexivity].
Defined.

(** ** Indicators, tiers and the reported result *)

Lemma rule_descriptions_vocabulary (name phrase : string) :
  rule_descriptions !! name = Some phrase -> phrase ∈ indicator_vocabulary.
Proof.
  unfold rule_descriptions. intros H.
  apply elem_of_list_to_map_2 in H.
  unfold indicator_vocabulary.
  repeat (apply elem_of_cons in H as [H|H]; [injection H as _ ->; set_solver|]).
  inversion H.
Qed.

Lemma collect_indicators_vocabulary (triggered : list string)
    (features : list (list Q)) (indicators : list string) :
  collect_indicators triggered features = Ok indicators ->
  indicators ⊆ indicator_vocabulary.
Proof.
  unfold collect_indicators.
  assert (Hrules : omap (fun rule => rule_descriptions !! rule) triggered
                   ⊆ indicator_vocabulary).
  { intros p Hp. apply list_elem_of_omap in Hp as (name & _ & Hname).
    eapply rule_descriptions_vocabulary, Hname. }
  destruct (0 <? length features)%nat; [|intros H; injection H as <-; exact Hrules].
  intros H. do 4 bind_inv H. injection H as <-.
  assert (Happ : forall (b : bool) (l : list string) (p : string),
             l ⊆ indicator_vocabulary -> p ∈ indicator_vocabulary ->
             (if b then l ++ [p] else l) ⊆ indicator_vocabulary).
  { intros b l p Hl Hp. destruct b; [|exact Hl].
    intros q Hq. apply elem_of_app in Hq as [Hq|Hq]; [auto|].
    apply list_elem_of_singleton in Hq. subst q. exact Hp. }
  apply Happ; [apply Happ; [apply Happ; [exact Hrules|]|]|];
    apply list_elem_of_In; simpl; tauto.
Qed.

(** X8: whatever the rule names and the features, every returned indicator
    is one of eight fixed phrases, so at most eight are returned; a rule
    name without a description adds nothing. *)
Theorem fraud_indicators_vocabulary (rt : Runtime) (triggered : list string)
    (features : list (list Q)) (out : list string) :
  _generate_fraud_indicators rt triggered features = Ok out ->
  out ⊆ indicator_vocabulary /\
  (length out <= 8)%nat /\
  (forall name, rule_descriptions !! name = None ->
     _generate_fraud_indicators rt (name :: triggered) features = Ok out).
Proof.
  unfold _generate_fraud_indicators. intros H. bind_inv H. injection H as <-.
  pose proof (collect_indicators_vocabulary _ _ _ E) as Hsub.
  assert (Hout : list_of_set (str_hash rt) x ⊆ indicator_vocabulary).
  { intros p Hp. apply Hsub. apply list_of_set_elem in Hp. exact Hp. }
  split; [exact Hout|]. split.
  - change 8%nat with (length indicator_vocabulary).
    apply submseteq_length, NoDup_submseteq; [apply list_of_set_NoDup|].
    exact Hout.
  - intros name Hnone.
    assert (Hc : collect_indicators (name :: triggered) features
                 = collect_indicators triggered features).
    { unfold collect_indicators. simpl. rewrite Hnone. reflexivity. }
    rewrite Hc, E. reflexivity.
Qed.

Lemma fraud_indicators_vocabulary_witness :
  exists out,
    _generate_fraud_indicators reference_runtime
      ["rule_added_later"; "unusual_time"] [[9; 23; 0; 1; 2; 1; 2; 0]] = Ok out /\
    (length out <= 8)%nat.
Proof.
  destruct (fraud_indicators_vocabulary reference_runtime ["unusual_time"]
              [[9; 23; 0; 1; 2; 1; 2; 0]] _ eq_refl) as (_ & Hlen & Hskip).
  eexists. split; [apply Hskip; reflexivity | exact Hlen].
Defined.

(** X9: the two kinds of result are told apart by any of three fields: the
    tier is unknown exactly when the error text is present, exactly when the
    list of triggered rules is absent, and exactly when the [try] block
    raised. *)
Theorem analysis_result_kinds (rt : Runtime) (settings : Settings)
    (self : FraudDetectionEngine) (transaction_data : gmap string pyval) :
  exists r,
    analyze_transaction rt settings self transaction_data = Ok r /\
    (risk_level r = "unknown" <-> is_Some (error r)) /\
    (risk_level r = "unknown" <-> triggered_rules r = None) /\
    (risk_level r = "unknown"
       <-> exists e, analysis_body rt settings self transaction_data = Raise e) /\
    (risk_level r = "unknown" -> risk_score r = 0.0 /\ is_flagged r = false) /\
    transaction_id r = dict_get transaction_data "transaction_id" VNone.
Proof.
  unfold analyze_transaction, py_try.
  destruct (analysis_body rt settings self transaction_data) as [r|e] eqn:Hbody.
  - exists r. split; [reflexivity|].
    unfold analysis_body in Hbody. bind_inv Hbody. bind_inv Hbody.
    destruct x0 as [rs names]. bind_inv Hbody. cbv zeta in Hbody.
    bind_inv Hbody. injection Hbody as <-. simpl.
    pose proof (determine_risk_level_known (_combine_scores rs x0)) as Hk.
    split; [split; intros Hx; [contradiction | destruct Hx; discriminate]|].
    split; [split; intros Hx; [contradiction | discriminate]|].
    split; [split; intros Hx; [contradiction | destruct Hx; discriminate]|].
    split; [intros Hx; contradiction | reflexivity].
  - exists (degraded_result transaction_data e). split; [reflexivity|].
    simpl. repeat split; intros; eauto.
Qed.

(** ** Monotonicity of fusion and tiers *)

Ltac Qle_bool_to_prop :=
  repeat match goal with
         | H : Qle_bool _ _ = true |- _ => apply Qle_bool_true in H
         | H : Qle_bool _ _ = false |- _ => apply Qle_bool_false in H
         end.

Lemma tier_rank_monotone (s s' : Q) :
  s <= s' ->
  (tier_rank (_determine_risk_level s) <= tier_rank (_determine_risk_level s'))%nat.
Proof.
  intros Hle. unfold _determine_risk_level.
  destruct (Qle_bool 8.0 s) eqn:A8; destruct (Qle_bool 6.0 s) eqn:A6;
    destruct (Qle_bool 4.0 s) eqn:A4; destruct (Qle_bool 8.0 s') eqn:B8;
    destruct (Qle_bool 6.0 s') eqn:B6; destruct (Qle_bool 4.0 s') eqn:B4;
    Qle_bool_to_prop; vm_compute; try lia; exfalso; lra.
Qed.

Lemma combine_scores_monotone (r r' m m' : Q) :
  r <= r' -> m <= m' -> _combine_scores r m <= _combine_scores r' m'.
Proof.
  intros Hr Hm. unfold _combine_scores. cbv zeta.
  apply py_min_glb; [|apply py_min_le_r].
  apply Qle_trans with (r * 0.6 + m * 0.4); [apply py_min_le_l | lra].
Qed.

(** X11: a higher rule score or a higher model score never lowers the fused
    score and never lowers the tier. *)
Theorem higher_scores_never_lower_tier (r r' m m' : Q) :
  r <= r' -> m <= m' ->
  _combine_scores r m <= _combine_scores r' m' /\
  (tier_rank (_determine_risk_level (_combine_scores r m))
   <= tier_rank (_determine_risk_level (_combine_scores r' m')))%nat.
Proof.
  intros Hr Hm.
  pose proof (combine_scores_monotone r r' m m' Hr Hm) as Hc.
  split; [exact Hc | apply tier_rank_monotone, Hc].
Qed.

Lemma higher_scores_never_lower_tier_witness :
  _determine_risk_level (_combine_scores 3 5) = "low" /\
  _determine_risk_level (_combine_scores 10 5) = "critical" /\
  _combine_scores 3 5 <= _combine_scores 10 5.
Proof.
  destruct (higher_scores_never_lower_tier 3 10 5 5) as [Hle _].
  - vm_compute. discriminate.
  - vm_compute. discriminate.
  - split; [reflexivity|]. split; [reflexivity | exact Hle].
Defined.

Lemma analysis_body_inv (rt : Runtime) (settings : Settings)
    (self : FraudDetectionEngine) (transaction_data : gmap string pyval)
    (r : AnalysisResult) :
  analysis_body rt settings self transaction_data = Ok r ->
  exists final,
    risk_level r = _determine_risk_level final /\
    is_flagged r = Qle_bool (FRAUD_THRESHOLD settings) final.
Proof.
  unfold analysis_body. intros H.
  bind_inv H. bind_inv H. destruct x0 as [rs triggered].
  bind_inv H. cbv zeta in H. bind_inv H.
  injection H as <-. eexists. split; reflexivity.
Qed.

(** X12: with a threshold of at most 4, as the default 0.7 is, every result
    in the medium, high or critical tier is flagged; an unflagged result is
    in the low tier or is the degraded result, whose tier is [unknown]. *)
Theorem raised_tier_implies_flag (rt : Runtime) (settings : Settings)
    (self : FraudDetectionEngine) (transaction_data : gmap string pyval) :
  FRAUD_THRESHOLD settings <= 4 ->
  exists r,
    analyze_transaction rt settings self transaction_data = Ok r /\
    (risk_level r ∈ ["medium"; "high"; "critical"] -> is_flagged r = true) /\
    (is_flagged r = false ->
     risk_level r = "low" \/
     (risk_level r = "unknown" /\ exists e, r = degraded_result transaction_data e)).
Proof.
  intros Hthr. unfold analyze_transaction, py_try.
  destruct (analysis_body rt settings self transaction_data) as [r|e] eqn:Hbody.
  - exists r. split; [reflexivity|].
    destruct (analysis_body_inv _ _ _ _ _ Hbody) as (final & Hlevel & Hflag).
    assert (Hcase : risk_level r = "low" \/ is_flagged r = true).
    { rewrite Hlevel, Hflag. unfold _determine_risk_level.
      destruct (Qle_bool 8.0 final) eqn:E8;
        [right; apply Qle_bool_true in E8; apply Qle_bool_true; lra|].
      destruct (Qle_bool 6.0 final) eqn:E6;
        [right; apply Qle_bool_true in E6; apply Qle_bool_true; lra|].
      destruct (Qle_bool 4.0 final) eqn:E4;
        [right; apply Qle_bool_true in E4; apply Qle_bool_true; lra|].
      left. reflexivity. }
    split.
    + intros Hup. destruct Hcase as [Hl|Hf]; [|exact Hf].
      rewrite Hl in Hup. apply list_elem_of_In in Hup. simpl in Hup.
      intuition discriminate.
    + intros Hf. destruct Hcase as [Hl|Ht]; [left; exact Hl | congruence].
  - exists (degraded_result transaction_data e). split; [reflexivity|].
    split.
    + simpl. intros Hup. apply list_elem_of_In in Hup. simpl in Hup.
      intuition discriminate.
    + intros _. right. split; [reflexivity | eauto].
Qed.

Lemma raised_tier_implies_flag_witness :
  (exists r,
     analyze_transaction reference_runtime default_settings
       (init_engine (constant_models (-2) 0.9)) high_value_payload = Ok r /\
     risk_level r = "high" /\ is_flagged r = true) /\
  (exists r,
     analyze_transaction reference_runtime default_settings
       (init_engine (constant_models (-2) 0.9)) malformed_amount_payload = Ok r /\
     is_flagged r = false /\ risk_level r = "unknown").
Proof.
  split.
  - destruct (raised_tier_implies_flag reference_runtime default_settings
                (init_engine (constant_models (-2) 0.9)) high_value_payload
                ltac:(vm_compute; discriminate)) as (r & Hr & Hup & _).
    assert (Hlevel : risk_level r = "high").
    { vm_compute in Hr. injection Hr as <-. reflexivity. }
    exists r. split; [exact Hr|]. split; [exact Hlevel|].
    apply Hup. rewrite Hlevel. apply list_elem_of_In. simpl. tauto.
  - destruct (raised_tier_implies_flag reference_runtime default_settings
                (init_engine (constant_models (-2) 0.9)) malformed_amount_payload
                ltac:(vm_compute; discriminate)) as (r & Hr & _ & Hlow).
    assert (Hflag : is_flagged r = false).
    { vm_compute in Hr. injection Hr as <-. reflexivity. }
    exists r. split; [exact Hr|]. split; [exact Hflag|].
    destruct (Hlow Hflag) as [Hl|[Hu _]]; [|exact Hu].
    vm_compute in Hr. injection Hr as <-. discriminate Hl.
Defined.

(** ** The statistical scorer *)

(** X13: when the three fitted objects answer, the model score is the mean
    of the clamped anomaly score and ten times the fraud probability: the
    anomaly part is 0 from a decision value of 0.5 on and 10 up to a
    decision value of -1.5. *)
Theorem ml_score_saturation (self : FraudDetectionEngine)
    (features scaled : list (list Q)) (decision p : Q) :
  scaler_transform (models self) features = Ok scaled ->
  anomaly_decision_function (models self) scaled = Ok decision ->
  classifier_predict_proba (models self) scaled = Ok p ->
  exists s,
    _apply_ml_models self features = Ok s /\
    (0.5 <= decision -> s == 5 * p) /\
    (decision <= -1.5 -> s == 5 + 5 * p) /\
    (-1.5 <= decision -> decision <= 0.5 ->
       s == ((0.5 - decision) * 5 + 10 * p) / 2).
Proof.
  intros Hs Hd Hp. eexists. split.
  { unfold _apply_ml_models, ml_models_body.
    rewrite Hs, bind_Ok, Hd, bind_Ok. cbv zeta. rewrite Hp. reflexivity. }
  unfold py_max, py_min. split; [|split].
  - intros Hge.
    rewrite (Q.max_l 0 (Qmin 10 ((0.5 - decision) * 5))).
    + field.
    + apply Qle_trans with ((0.5 - decision) * 5); [apply Q.le_min_r | lra].
  - intros Hle.
    rewrite (Q.min_l 10 ((0.5 - decision) * 5)) by lra.
    rewrite (Q.max_r 0 10) by lra. field.
  - intros Hlo Hhi.
    rewrite (Q.min_r 10 ((0.5 - decision) * 5)) by lra.
    rewrite (Q.max_r 0 ((0.5 - decision) * 5)) by lra. field.
Qed.

Lemma ml_score_saturation_witness :
  exists s,
    _apply_ml_models (init_engine (constant_models (-2) 0.5)) [[0]] = Ok s /\
    s == 7.5.
Proof.
  destruct (ml_score_saturation (init_engine (constant_models (-2) 0.5))
              [[0]] [[0]] (-2) 0.5 eq_refl eq_refl eq_refl)
    as (s & Hs & _ & Hlow & _).
  exists s. split; [exact Hs|].
  rewrite Hlow; [vm_compute; reflexivity | vm_compute; discriminate].
Defined.

(** ** The default threshold against the built-in rules *)

Lemma sum_weights_ge_member (rules : list RiskRule) (rule : RiskRule) :
  Forall (fun r => 0 <= rule_weight r) rules ->
  rule ∈ rules ->
  rule_weight rule <= sum_weights rules.
Proof.
  unfold sum_weights.
  induction 1 as [|r rest Hr Hrest IH]; intros Hin; [inversion Hin|].
  pose proof (sum_weights_nonneg rest Hrest) as Hnn. unfold sum_weights in Hnn.
  simpl. apply elem_of_cons in Hin as [->|Hin]; [lra|].
  specialize (IH Hin). lra.
Qed.

Lemma builtin_rule_weight (rule : RiskRule) :
  rule ∈ load_risk_rules ->
  rule_name rule <> "new_merchant" ->
  1.5 <= rule_weight rule.
Proof.
  unfold load_risk_rules. intros Hin Hne.
  repeat (apply elem_of_cons in Hin as [->|Hin];
          [first [simpl; lra | exfalso; apply Hne; reflexivity]|]).
  inversion Hin.
Qed.

(** A triggered name accounts for at least the weight of its rule. *)
Lemma triggered_name_weight (rt : Runtime) (self : FraudDetectionEngine)
    (transaction_data : gmap string pyval) (rs w : Q) (names : list string)
    (name : string) :
  Forall (fun r => 0 <= rule_weight r) (risk_rules self) ->
  (forall rule, rule ∈ risk_rules self -> rule_name rule = name ->
     w <= rule_weight rule) ->
  _apply_risk_rules rt self transaction_data = Ok (rs, names) ->
  name ∈ names ->
  py_min w 10.0 <= rs.
Proof.
  intros Hnn Hw Hrules Hin.
  destruct (apply_risk_rules_inv _ _ _ _ _ Hrules)
    as (amount & ts & total & Ha & Ht & Hloop & ->).
  pose proof (rules_loop_Ok_inv _ _ _ _ _ _ _ _ Hloop) as Hall.
  destruct (rules_loop_spec _ _ _ _ Hall 0.0 []) as (s1 & H1 & Hs1).
  rewrite Hloop in H1. injection H1 as <- ->.
  change ([] ++ ?l) with l in Hin.
  apply list_elem_of_fmap in Hin as (rule & -> & Hrule).
  assert (Hmem : rule ∈ risk_rules self).
  { apply list_elem_of_In. apply list_elem_of_In in Hrule.
    apply filter_In in Hrule. tauto. }
  assert (Hge : rule_weight rule
                <= sum_weights (List.filter (triggers transaction_data amount ts)
                                            (risk_rules self))).
  { apply sum_weights_ge_member; [|exact Hrule].
    apply Forall_forall. intros r Hr.
    apply list_elem_of_In, filter_In in Hr as [Hr _].
    apply list_elem_of_In in Hr.
    exact (proj1 (Forall_forall _ _) Hnn r Hr). }
  specialize (Hw rule Hmem eq_refl).
  apply py_min_glb; [|apply py_min_le_r].
  apply Qle_trans with w; [apply py_min_le_l | lra].
Qed.

(** X14: with the built-in rules, the default threshold and a classifier
    that answers probabilities, a transaction on which any rule other than
    [new_merchant] triggers has a rule score of at least 1.5 and is
    flagged. *)
Theorem builtin_rule_hit_flags (rt : Runtime) (fitted : Models)
    (transaction_data : gmap string pyval) (final rs : Q)
    (names : list string) (name : string) :
  (forall X p, classifier_predict_proba fitted X = Ok p -> 0 <= p /\ p <= 1) ->
  final_score rt (init_engine fitted) transaction_data = Ok final ->
  _apply_risk_rules rt (init_engine fitted) transaction_data = Ok (rs, names) ->
  name ∈ names ->
  name <> "new_merchant" ->
  1.5 <= rs /\
  exists r,
    analyze_transaction rt default_settings (init_engine fitted) transaction_data
      = Ok r /\
    is_flagged r = true.
Proof.
  intros Hp Hfinal Hrules Hin Hne.
  assert (Hrs : 1.5 <= rs).
  { pose proof (triggered_name_weight rt (init_engine fitted) transaction_data
                  rs 1.5 names name load_risk_rules_weights) as Hw.
    apply Qle_trans with (py_min 1.5 10.0); [vm_compute; discriminate|].
    apply Hw; [|exact Hrules | exact Hin].
    intros rule Hmem Hname. apply builtin_rule_weight; [exact Hmem | congruence]. }
  split; [exact Hrs|].
  destruct (final_score_analysis rt default_settings (init_engine fitted)
              transaction_data final Hfinal) as (r & Hr & _ & Hflag & _).
  exists r. split; [exact Hr|].
  rewrite Hflag. apply Qle_bool_true.
  unfold final_score in Hfinal. bind_inv Hfinal. bind_inv Hfinal.
  destruct x0 as [rs' names']. bind_inv Hfinal. injection Hfinal as <-.
  rewrite Hrules in E0. injection E0 as <- <-.
  destruct (ml_score_bounds (init_engine fitted) x Hp) as (s & Hs & Hs0 & _).
  rewrite E1 in Hs. injection Hs as <-.
  unfold _combine_scores. cbv zeta. simpl FRAUD_THRESHOLD.
  apply py_min_glb; lra.
Qed.

Lemma builtin_rule_hit_flags_witness :
  exists r,
    analyze_transaction reference_runtime default_settings
      (init_engine (constant_models 0.5 0))
      (payload [("amount", VFloat 20.0); ("location_country", VStr "FR")]) = Ok r /\
    is_flagged r = true.
Proof.
  pose proof (fun final rs names =>
                builtin_rule_hit_flags reference_runtime (constant_models 0.5 0)
                  (payload [("amount", VFloat 20.0);
                            ("location_country", VStr "FR")])
                  final rs names "foreign_transaction") as Hhit.
  edestruct Hhit as (_ & r & Hr & Hflag).
  - intros X p Hp. injection Hp as <-. split; vm_compute; discriminate.
  - vm_compute. reflexivity.
  - vm_compute. reflexivity.
  - apply list_elem_of_In. simpl. tauto.
  - discriminate.
  - exists r. split; assumption.
Defined.

(** * Properties of the service *)

Lemma analyze_transaction_Ok (rt : Runtime) (settings : Settings)
    (self : FraudDetectionEngine) (transaction_data : gmap string pyval) :
  exists r, analyze_transaction rt settings self transaction_data = Ok r.
Proof.
  unfold analyze_transaction, py_try.
  destruct (analysis_body rt settings self transaction_data); eauto.
Qed.

(** [process_transaction], once the analysis is known, by the outcome of
    each step. *)
Lemma process_transaction_steps (rt : Runtime) (settings : Settings)
    (self : FraudDetectionEngine) (backend : Backend)
    (transaction_data : gmap string pyval) (r : AnalysisResult)
    (s : ServiceState) :
  analyze_transaction rt settings self transaction_data = Ok r ->
  process_transaction rt settings self backend transaction_data s =
    match _store_transaction rt backend transaction_data r s with
    | (Raise e, s1) => (Ok (error_response transaction_data e), s1)
    | (Ok stored, s1) =>
        if is_flagged r then
          match _create_fraud_alert rt backend stored r s1 with
          | (Raise e, s2) => (Ok (error_response transaction_data e), s2)
          | (Ok alert, s2) =>
              if bool_decide (risk_level r ∈ ["high"; "critical"])
              then (Ok (processed_response transaction_data r),
                    {| db_transactions := db_transactions s2;
                       db_alerts := db_alerts s2;
                       notified := notified s2 ++ [alert] |})
              else (Ok (processed_response transaction_data r), s2)
          end
        else (Ok (processed_response transaction_data r), s1)
    end.
Proof.
  intros Hr.
  unfold process_transaction, service_try, service_bind, service_lift, service_ret.
  rewrite Hr. unfold processed_response.
  destruct (_store_transaction rt backend transaction_data r s) as [[stored|e] s1];
    [|reflexivity].
  destruct (is_flagged r); [|reflexivity].
  destruct (_create_fraud_alert rt backend stored r s1) as [[alert|e] s2];
    [|reflexivity].
  destruct (bool_decide (risk_level r ∈ ["high"; "critical"])); reflexivity.
Qed.

Lemma store_transaction_cases (rt : Runtime) (backend : Backend)
    (transaction_data : gmap string pyval) (r : AnalysisResult)
    (s : ServiceState) :
  (exists e, _store_transaction rt backend transaction_data r s = (Raise e, s)) \/
  (exists id row,
     _store_transaction rt backend transaction_data r s
     = (Ok (id, row),
        {| db_transactions := db_transactions s ++ [(id, row)];
           db_alerts := db_alerts s;
           notified := notified s |}) /\
     commit_transaction backend s row = Ok id /\
     py_float rt (dict_get transaction_data "amount" (VInt 0)) = Ok (row_amount row) /\
     row_status row = (if is_flagged r then "investigating" else "approved") /\
     row_risk_score row = risk_score r /\
     row_is_flagged row = is_flagged r /\
     row_channel row = dict_get transaction_data "channel" (VStr "online")).
Proof.
  unfold _store_transaction.
  destruct (session_error backend); [left; eauto|].
  destruct (py_float rt (dict_get transaction_data "amount" (VInt 0)))
    as [amount|e]; [|left; eauto].
  match goal with
  | |- context [commit_transaction backend s ?row] =>
      destruct (commit_transaction backend s row) as [id|e] eqn:Hc
  end; [|left; eauto].
  right. eexists _, _. split; [reflexivity|]. split; [exact Hc|].
  repeat split.
Qed.

Lemma create_fraud_alert_cases (rt : Runtime) (backend : Backend)
    (stored : Z * TransactionRow) (r : AnalysisResult) (s : ServiceState) :
  (exists e, _create_fraud_alert rt backend stored r s = (Raise e, s)) \/
  (exists id alert,
     _create_fraud_alert rt backend stored r s
     = (Ok alert,
        {| db_transactions := db_transactions s;
           db_alerts := db_alerts s ++ [(id, alert)];
           notified := notified s |}) /\
     commit_alert backend s alert = Ok id /\
     alert_transaction_id alert = fst stored /\
     alert_severity alert = risk_level r /\
     alert_risk_score alert = risk_score r /\
     alert_alert_type alert = _determine_alert_type r /\
     alert_status alert = "open").
Proof.
  unfold _create_fraud_alert.
  destruct (session_error backend); [left; eauto|].
  match goal with
  | |- context [commit_alert backend s ?alert] =>
      destruct (commit_alert backend s alert) as [id|e] eqn:Hc
  end; [|left; eauto].
  right. eexists _, _. split; [reflexivity|]. split; [exact Hc|].
  repeat split.
Qed.

(** X15: [process_transaction] always answers, and whatever the backend
    does it writes at most one transaction row, creates an alert only for a
    flagged analysis and only after the transaction row was stored, and
    hands an alert to the notification service only when the analysis is
    flagged with tier high or critical and that alert was stored. *)
Theorem process_transaction_effects (rt : Runtime) (settings : Settings)
    (self : FraudDetectionEngine) (backend : Backend)
    (transaction_data : gmap string pyval) (s : ServiceState) :
  exists r response s',
    analyze_transaction rt settings self transaction_data = Ok r /\
    process_transaction rt settings self backend transaction_data s
      = (Ok response, s') /\
    (response = processed_response transaction_data r \/
     exists e, response = error_response transaction_data e) /\
    (db_transactions s' = db_transactions s \/
     exists id row,
       db_transactions s' = db_transactions s ++ [(id, row)] /\
       row_status row = (if is_flagged r then "investigating" else "approved")) /\
    (db_alerts s' = db_alerts s \/
     exists id alert row,
       db_alerts s' = db_alerts s ++ [(id, alert)] /\
       is_flagged r = true /\
       db_transactions s'
         = db_transactions s ++ [(alert_transaction_id alert, row)]) /\
    (notified s' = notified s \/
     exists id alert,
       notified s' = notified s ++ [alert] /\
       db_alerts s' = db_alerts s ++ [(id, alert)] /\
       is_flagged r = true /\
       risk_level r ∈ ["high"; "critical"] /\
       response = processed_response transaction_data r).
Proof.
  destruct (analyze_transaction_Ok rt settings self transaction_data) as [r Hr].
  exists r. rewrite (process_transaction_steps _ _ _ _ _ _ _ Hr).
  destruct (store_transaction_cases rt backend transaction_data r s)
    as [[e ->] | (id & row & -> & _ & _ & Hstatus & _)].
  { do 2 eexists. split; [exact Hr|]. split; [reflexivity|].
    split; [right; eauto|]. repeat split; left; reflexivity. }
  destruct (is_flagged r) eqn:Hflag.
  2:{ do 2 eexists. split; [exact Hr|]. split; [reflexivity|].
      split; [left; reflexivity|].
      split; [right; eauto|]. split; left; reflexivity. }
  match goal with
  | |- context [_create_fraud_alert rt backend ?st r ?s1] =>
      destruct (create_fraud_alert_cases rt backend st r s1)
        as [[e ->] | (aid & alert & -> & _ & Htid & _)]
  end.
  { do 2 eexists. split; [exact Hr|]. split; [reflexivity|].
    split; [right; eauto|].
    split; [right; eauto|]. split; left; reflexivity. }
  simpl in Htid.
  destruct (bool_decide (risk_level r ∈ ["high"; "critical"])) eqn:Hlvl.
  - apply bool_decide_eq_true in Hlvl.
    do 2 eexists. split; [exact Hr|]. split; [reflexivity|].
    split; [left; reflexivity|]. simpl.
    split; [right; eauto|].
    split; [right; exists aid, alert, row; rewrite Htid; auto|].
    right. exists aid, alert. auto.
  - do 2 eexists. split; [exact Hr|]. split; [reflexivity|].
    split; [left; reflexivity|]. simpl.
    split; [right; eauto|].
    split; [right; exists aid, alert, row; rewrite Htid; auto|].
    left. reflexivity.
Qed.

Lemma store_transaction_Ok (rt : Runtime) (backend : Backend)
    (transaction_data : gmap string pyval) (r : AnalysisResult)
    (s : ServiceState) (amount : Q) :
  session_error backend = None ->
  py_float rt (dict_get transaction_data "amount" (VInt 0)) = Ok amount ->
  (forall row, exists id, commit_transaction backend s row = Ok id) ->
  exists id row,
    _store_transaction rt backend transaction_data r s
    = (Ok (id, row),
       {| db_transactions := db_transactions s ++ [(id, row)];
          db_alerts := db_alerts s;
          notified := notified s |}) /\
    row_amount row = amount /\
    row_status row = (if is_flagged r then "investigating" else "approved") /\
    row_risk_score row = risk_score r /\
    row_is_flagged row = is_flagged r.
Proof.
  intros Hs Ha Hc. unfold _store_transaction. rewrite Hs, Ha.
  match goal with
  | |- context [commit_transaction backend s ?row] => destruct (Hc row) as [id Hid]
  end.
  rewrite Hid. eexists _, _. split; [reflexivity|]. repeat split.
Qed.

(** X16: an analysis that failed is not flagged, so when the amount can
    still be converted and the database accepts the row, the transaction
    is stored with status approved and risk score 0.0, no alert is created
    and nothing is notified; the caller is told the transaction was
    processed and needs no review. *)
Theorem failed_analysis_is_stored_approved (rt : Runtime) (settings : Settings)
    (self : FraudDetectionEngine) (backend : Backend)
    (transaction_data : gmap string pyval) (s : ServiceState)
    (e : exn) (amount : Q) :
  analysis_body rt settings self transaction_data = Raise e ->
  py_float rt (dict_get transaction_data "amount" (VInt 0)) = Ok amount ->
  session_error backend = None ->
  (forall row, exists id, commit_transaction backend s row = Ok id) ->
  exists id row s',
    process_transaction rt settings self backend transaction_data s
    = (Ok (processed_response transaction_data
             (degraded_result transaction_data e)), s') /\
    db_transactions s' = db_transactions s ++ [(id, row)] /\
    db_alerts s' = db_alerts s /\
    notified s' = notified s /\
    row_status row = "approved" /\
    row_is_flagged row = false /\
    row_risk_score row = 0.0 /\
    row_amount row = amount /\
    response_requires_review
      (processed_response transaction_data (degraded_result transaction_data e))
    = Some false.
Proof.
  intros Hbody Ha Hs Hc.
  assert (Hr : analyze_transaction rt settings self transaction_data
               = Ok (degraded_result transaction_data e)).
  { unfold analyze_transaction. rewrite Hbody. reflexivity. }
  rewrite (process_transaction_steps _ _ _ _ _ _ _ Hr).
  destruct (store_transaction_Ok rt backend transaction_data
              (degraded_result transaction_data e) s amount Hs Ha Hc)
    as (id & row & -> & Hamount & Hstatus & Hscore & Hflag).
  simpl is_flagged. cbv iota.
  exists id, row. eexists. split; [reflexivity|]. simpl.
  repeat split; assumption.
Qed.

Lemma failed_analysis_is_stored_approved_witness :
  exists id row s',
    process_transaction reference_runtime default_settings
      (init_engine (constant_models 0.1 0.2)) reference_backend
      malformed_timestamp_payload empty_state
    = (Ok (processed_response malformed_timestamp_payload
             (degraded_result malformed_timestamp_payload
                (ValueError "Invalid isoformat string: 'yesterday'"))), s') /\
    db_transactions s' = [(id, row)] /\
    db_alerts s' = [] /\
    row_status row = "approved".
Proof.
  destruct (failed_analysis_is_stored_approved reference_runtime default_settings
              (init_engine (constant_models 0.1 0.2)) reference_backend
              malformed_timestamp_payload empty_state
              (ValueError "Invalid isoformat string: 'yesterday'") 10.0)
    as (id & row & s' & Hp & Ht & Hal & _ & Hst & _).
  - reflexivity.
  - reflexivity.
  - reflexivity.
  - intros row. eexists. reflexivity.
  - exists id, row, s'. auto.
Defined.

(** X17: an amount that cannot be converted fails the analysis and then
    the storing as well: the caller gets the status error with the text of
    the exception, and nothing is written. *)
Theorem unconvertible_amount_is_an_error (rt : Runtime) (settings : Settings)
    (self : FraudDetectionEngine) (backend : Backend)
    (transaction_data : gmap string pyval) (s : ServiceState) (e : exn) :
  py_float rt (dict_get transaction_data "amount" (VInt 0)) = Raise e ->
  session_error backend = None ->
  analyze_transaction rt settings self transaction_data
    = Ok (degraded_result transaction_data e) /\
  process_transaction rt settings self backend transaction_data s
    = (Ok (error_response transaction_data e), s) /\
  response_status (error_response transaction_data e) = "error" /\
  response_error (error_response transaction_data e) = Some (str_of_exn e).
Proof.
  intros Ha Hs.
  assert (Hr : analyze_transaction rt settings self transaction_data
               = Ok (degraded_result transaction_data e)).
  { apply analyze_degraded. unfold _extract_features. rewrite Ha. reflexivity. }
  split; [exact Hr|].
  rewrite (process_transaction_steps _ _ _ _ _ _ _ Hr).
  unfold _store_transaction. rewrite Hs, Ha. repeat split.
Qed.

Lemma unconvertible_amount_is_an_error_witness :
  exists response,
    process_transaction reference_runtime default_settings
      (init_engine (constant_models 0.1 0.2)) reference_backend
      malformed_amount_payload empty_state
    = (Ok response, empty_state) /\
    response_status response = "error".
Proof.
  destruct (unconvertible_amount_is_an_error reference_runtime default_settings
              (init_engine (constant_models 0.1 0.2)) reference_backend
              malformed_amount_payload empty_state
              (ValueError "could not convert string to float: 'abc'")
              eq_refl eq_refl) as (_ & Hp & Hst & _).
  eexists. split; [exact Hp | exact Hst].
Defined.

(** X18: the transaction row is committed before the alert: when the alert
    cannot be committed, the caller gets the status error although the
    transaction stays stored, with status investigating and no alert. *)
Theorem failed_alert_leaves_transaction_stored (rt : Runtime)
    (settings : Settings) (self : FraudDetectionEngine) (backend : Backend)
    (transaction_data : gmap string pyval) (s : ServiceState)
    (r : AnalysisResult) (amount : Q) (e : exn) :
  analyze_transaction rt settings self transaction_data = Ok r ->
  is_flagged r = true ->
  session_error backend = None ->
  py_float rt (dict_get transaction_data "amount" (VInt 0)) = Ok amount ->
  (forall row, exists id, commit_transaction backend s row = Ok id) ->
  (forall s1 alert, commit_alert backend s1 alert = Raise e) ->
  exists id row s',
    process_transaction rt settings self backend transaction_data s
    = (Ok (error_response transaction_data e), s') /\
    db_transactions s' = db_transactions s ++ [(id, row)] /\
    row_status row = "investigating" /\
    db_alerts s' = db_alerts s /\
    notified s' = notified s.
Proof.
  intros Hr Hflag Hs Ha Hc Hfail.
  rewrite (process_transaction_steps _ _ _ _ _ _ _ Hr).
  destruct (store_transaction_Ok rt backend transaction_data r s amount Hs Ha Hc)
    as (id & row & -> & _ & Hstatus & _).
  rewrite Hflag in *.
  unfold _create_fraud_alert. rewrite Hs, Hfail.
  exists id, row. eexists. split; [reflexivity|]. simpl. auto.
Qed.

Lemma failed_alert_leaves_transaction_stored_witness :
  exists id row s',
    process_transaction reference_runtime default_settings
      (init_engine (constant_models 0.1 0.2)) alert_table_down
      high_value_payload empty_state
    = (Ok (error_response high_value_payload (ValueError "database is locked")), s') /\
    db_transactions s' = [(id, row)] /\
    db_alerts s' = [].
Proof.
  edestruct (failed_alert_leaves_transaction_stored reference_runtime
               default_settings (init_engine (constant_models 0.1 0.2))
               alert_table_down high_value_payload empty_state)
    as (id & row & s' & Hp & Ht & _ & Hal & _).
  - vm_compute. reflexivity.
  - reflexivity.
  - reflexivity.
  - reflexivity.
  - intros row. eexists. reflexivity.
  - intros s1 alert. reflexivity.
  - exists id, row, s'. auto.
Defined.

(** X19: a payload without a channel is scored as a point-of-sale
    transaction (channel code 3) but stored as an online one. *)
Theorem channel_default_differs (rt : Runtime) (backend : Backend)
    (transaction_data : gmap string pyval) (r : AnalysisResult)
    (s s' : ServiceState) (features : list (list Q))
    (stored : Z * TransactionRow) :
  transaction_data !! "channel" = None ->
  _extract_features rt transaction_data = Ok features ->
  _store_transaction rt backend transaction_data r s = (Ok stored, s') ->
  feature features 3 = Some 3 /\
  row_channel (snd stored) = VStr "online".
Proof.
  intros Hnone Hf Hstore.
  destruct (extract_features_inv _ _ _ Hf)
    as (amount & d & channel & kind & balance & _ & _ & Hc & _ & _ & ->).
  unfold dict_get in Hc. rewrite Hnone in Hc. injection Hc as <-.
  split; [reflexivity|].
  destruct (store_transaction_cases rt backend transaction_data r s)
    as [[e He] | (id & row & Hrow & _ & _ & _ & _ & _ & Hch)].
  - rewrite He in Hstore. discriminate.
  - rewrite Hrow in Hstore. injection Hstore as <- _.
    simpl. rewrite Hch. unfold dict_get. rewrite Hnone. reflexivity.
Qed.

Lemma channel_default_differs_witness :
  exists features stored s',
    _extract_features reference_runtime (payload [("amount", VInt 40)]) = Ok features /\
    feature features 3 = Some 3 /\
    _store_transaction reference_runtime reference_backend
      (payload [("amount", VInt 40)])
      (degraded_result (payload [("amount", VInt 40)]) (ValueError ""))
      empty_state = (Ok stored, s') /\
    row_channel (snd stored) = VStr "online".
Proof.
  edestruct (channel_default_differs reference_runtime reference_backend
               (payload [("amount", VInt 40)])
               (degraded_result (payload [("amount", VInt 40)]) (ValueError ""))
               empty_state) as [Hf Hch].
  - reflexivity.
  - reflexivity.
  - reflexivity.
  - do 3 eexists. split; [reflexivity|]. split; [exact Hf|].
    split; [reflexivity | exact Hch].
Defined.

(** X20: the alert type follows a fixed priority among the triggered rules:
    high amount, then foreign location, then velocity, then unusual time;
    it is the anomaly type exactly when none of the four triggered, which
    covers a result without a rule list and one where only [new_merchant]
    triggered. *)
Theorem determine_alert_type_priority (r : AnalysisResult) :
  let triggered := default [] (triggered_rules r) in
  (_determine_alert_type r = "high_value_transaction"
     <-> "high_amount_threshold" ∈ triggered) /\
  (_determine_alert_type r = "suspicious_location"
     <-> ("high_amount_threshold" ∉ triggered) /\ "foreign_transaction" ∈ triggered) /\
  (_determine_alert_type r = "rapid_transactions"
     <-> ("high_amount_threshold" ∉ triggered) /\ ("foreign_transaction" ∉ triggered) /\
         "velocity_check" ∈ triggered) /\
  (_determine_alert_type r = "off_hours_transaction"
     <-> ("high_amount_threshold" ∉ triggered) /\ ("foreign_transaction" ∉ triggered) /\
         ("velocity_check" ∉ triggered) /\ "unusual_time" ∈ triggered) /\
  (_determine_alert_type r = "anomaly_detected"
     <-> ("high_amount_threshold" ∉ triggered) /\ ("foreign_transaction" ∉ triggered) /\
         ("velocity_check" ∉ triggered) /\ ("unusual_time" ∉ triggered)) /\
  (triggered_rules r = None -> _determine_alert_type r = "anomaly_detected") /\
  (triggered_rules r = Some ["new_merchant"] ->
     _determine_alert_type r = "anomaly_detected").
Proof.
  cbv zeta. unfold _determine_alert_type.
  split; [|split; [|split; [|split; [|split; [|split]]]]].
  1-5: repeat case_bool_decide; split; intros Hx;
       try discriminate; try reflexivity; try tauto.
  - intros ->. reflexivity.
  - intros ->. reflexivity.
Qed.

Lemma create_fraud_alert_Ok (rt : Runtime) (backend : Backend)
    (stored : Z * TransactionRow) (r : AnalysisResult) (s : ServiceState) :
  session_error backend = None ->
  (forall s1 alert, exists id, commit_alert backend s1 alert = Ok id) ->
  exists id alert,
    _create_fraud_alert rt backend stored r s
    = (Ok alert,
       {| db_transactions := db_transactions s;
          db_alerts := db_alerts s ++ [(id, alert)];
          notified := notified s |}) /\
    alert_transaction_id alert = fst stored /\
    alert_severity alert = risk_level r /\
    alert_alert_type alert = _determine_alert_type r /\
    alert_status alert = "open".
Proof.
  intros Hs Hc. unfold _create_fraud_alert. rewrite Hs.
  match goal with
  | |- context [commit_alert backend s ?alert] => destruct (Hc s alert) as [id Hid]
  end.
  rewrite Hid. eexists _, _. split; [reflexivity|]. repeat split.
Qed.

(** X21: with a threshold of at most 6 and a database that accepts the
    rows, a transaction whose final score reaches 6 is stored with status
    investigating, gets one open alert that refers to the stored row and
    carries the tier as severity, and that alert is handed to the
    notification service. *)
Theorem high_tier_is_notified (rt : Runtime) (settings : Settings)
    (self : FraudDetectionEngine) (backend : Backend)
    (transaction_data : gmap string pyval) (s : ServiceState) (final : Q) :
  FRAUD_THRESHOLD settings <= 6 ->
  final_score rt self transaction_data = Ok final ->
  6 <= final ->
  session_error backend = None ->
  (forall s1 row, exists id, commit_transaction backend s1 row = Ok id) ->
  (forall s1 alert, exists id, commit_alert backend s1 alert = Ok id) ->
  exists r tid row aid alert s',
    analyze_transaction rt settings self transaction_data = Ok r /\
    process_transaction rt settings self backend transaction_data s
      = (Ok (processed_response transaction_data r), s') /\
    db_transactions s' = db_transactions s ++ [(tid, row)] /\
    row_status row = "investigating" /\
    db_alerts s' = db_alerts s ++ [(aid, alert)] /\
    notified s' = notified s ++ [alert] /\
    alert_transaction_id alert = tid /\
    alert_severity alert ∈ ["high"; "critical"] /\
    alert_status alert = "open".
Proof.
  intros Hthr Hfinal Hsix Hs Hct Hca.
  destruct (final_score_analysis rt settings self transaction_data final Hfinal)
    as (r & Hr & _ & Hflag & Hlevel).
  assert (Hflagged : is_flagged r = true).
  { rewrite Hflag. apply Qle_bool_true. lra. }
  assert (Htier : risk_level r ∈ ["high"; "critical"]).
  { rewrite Hlevel. unfold _determine_risk_level.
    destruct (Qle_bool 8.0 final); [set_solver|].
    replace (Qle_bool 6.0 final) with true; [set_solver|].
    symmetry. apply Qle_bool_true. lra. }
  assert (Ha : exists amount,
             py_float rt (dict_get transaction_data "amount" (VInt 0)) = Ok amount).
  { unfold final_score in Hfinal. bind_inv Hfinal.
    destruct (extract_features_inv _ _ _ E) as (amount & _ & _ & _ & _ & Ha & _).
    eauto. }
  destruct Ha as [amount Ha].
  destruct (store_transaction_Ok rt backend transaction_data r s amount Hs Ha (Hct s))
    as (tid & row & Hstore & _ & Hstatus & _).
  rewrite Hflagged in Hstatus.
  pose proof (process_transaction_steps rt settings self backend
                transaction_data r s Hr) as Hp.
  rewrite Hstore, Hflagged in Hp.
  match type of Hp with
  | context [_create_fraud_alert rt backend ?st r ?s1] =>
      destruct (create_fraud_alert_Ok rt backend st r s1 Hs Hca)
        as (aid & alert & Hcreate & Htid & Hsev & _ & Hopen)
  end.
  rewrite Hcreate, (bool_decide_eq_true_2 _ Htier) in Hp.
  exists r, tid, row, aid, alert. eexists.
  split; [exact Hr|]. split; [exact Hp|].
  simpl. rewrite Hsev. auto 10.
Qed.

Lemma high_tier_is_notified_witness :
  exists r alert s',
    process_transaction reference_runtime default_settings
      (init_engine (constant_models (-2) 0.9)) reference_backend
      high_value_payload empty_state
    = (Ok (processed_response high_value_payload r), s') /\
    notified s' = [alert] /\
    alert_alert_id alert = "FA-2024-000001".
Proof.
  edestruct (high_tier_is_notified reference_runtime default_settings
               (init_engine (constant_models (-2) 0.9)) reference_backend
               high_value_payload empty_state)
    as (r & tid & row & aid & alert & s' & _ & Hp & _ & _ & _ & Hn & _).
  - vm_compute. discriminate.
  - vm_compute. reflexivity.
  - vm_compute. discriminate.
  - reflexivity.
  - intros s1 row. eexists. reflexivity.
  - intros s1 alert. eexists. reflexivity.
  - exists r, alert, s'. split; [exact Hp|]. split; [exact Hn|].
    pose proof (f_equal snd Hp) as Hstate. vm_compute in Hstate. subst s'.
    injection Hn as <-. reflexivity.
Defined.
